(** * superstatic: the static-files middleware (lib/middleware/files.js)

    A shallow embedding of the path-resolution middleware and of the helpers
    it calls, followed by the properties the specification states about it.

    JavaScript strings are modelled by [string] (a sequence of bytes).  Every
    comparison the middleware makes is against an ASCII literal ("/", "?",
    ".html", "/index", "/index.html"), so a non-ASCII character behaves as an
    opaque run of bytes that never matches any of them. *)

From Stdlib Require Import Bool Arith Lia List Ascii String.
Import ListNotations.
Open Scope string_scope.

(** ** lodash *)

Module lodash.

(** [_.endsWith(string, target)]: does [string] end with [target]?  Some
    suffix of [s] is [target]. *)
Fixpoint endsWith (s target : string) : bool :=
  (s =? target) ||
  match s with
  | "" => false
  | String _ rest => endsWith rest target
  end.

End lodash.

(** ** lib/utils/pathutils.js

    The middleware requires "../utils/pathutils"; that file is not among the
    sources, so each helper is modelled from what the specification says
    about it. *)

Module pathutils.

(** Modelled from the spec: pathutils.hasTrailingSlash is not among the
    sources; "the original path has / lacks a trailing slash". *)
Definition hasTrailingSlash (pathname : string) : bool :=
  lodash.endsWith pathname "/".

(** Modelled from the spec: pathutils.addTrailingSlash is not among the
    sources; step 2 of section 4.2 wants "exactly one slash" before
    index.html, so a slash is appended only to a path that lacks one. *)
Definition addTrailingSlash (pathname : string) : string :=
  if hasTrailingSlash pathname then pathname else pathname ++ "/".

(** Modelled from the spec: pathutils.removeTrailingString is not among the
    sources; the specification's [stripSuffix]: the string without its
    trailing [rm] when it ends with [rm], the string itself otherwise. *)
Definition removeTrailingString (s rm : string) : string :=
  if lodash.endsWith s rm then substring 0 (length s - length rm) s else s.

(** Modelled from the spec: pathutils.removeTrailingSlash is not among the
    sources; [removeTrailingSlash(originalPath)]. *)
Definition removeTrailingSlash (pathname : string) : string :=
  removeTrailingString pathname "/".

(** Modelled from the spec: pathutils.asDirectoryIndex is not among the
    sources; "normalizedPath + /index.html (ensuring exactly one slash is
    inserted before index.html)". *)
Definition asDirectoryIndex (pathname : string) : string :=
  addTrailingSlash pathname ++ "index.html".

(** Modelled from the spec: pathutils.normalizeMultiSlashes is not among
    the sources; "collapses any run of two or more consecutive / characters
    in pathname into a single /". *)
Fixpoint normalizeMultiSlashes (pathname : string) : string :=
  match pathname with
  | "" => ""
  | String c rest =>
      match rest with
      | String c' _ =>
          if ((c =? "/") && (c' =? "/"))%char
          then normalizeMultiSlashes rest
          else String c (normalizeMultiSlashes rest)
      | "" => String c ""
      end
  end.

End pathutils.

(** ** fast-url-parser

    [url.parse] is a third-party library; section 4.1 of the specification
    describes the part of it the middleware uses: the target is split at the
    first "?", [pathname] is what comes before it and [search] is everything
    from the "?" onward (or nothing). *)

Module url.

Record Url := { pathname : string; search : string }.

Fixpoint pathname_of (target : string) : string :=
  match target with
  | "" => ""
  | String c rest =>
      if (c =? "?")%char then "" else String c (pathname_of rest)
  end.

Fixpoint search_of (target : string) : string :=
  match target with
  | "" => ""
  | String c rest => if (c =? "?")%char then target else search_of rest
  end.

Definition parse (target : string) : Url :=
  {| pathname := pathname_of target; search := search_of target |}.

End url.

(** Does the path hold a run of two or more slashes? *)
Fixpoint hasDoubleSlash (pathname : string) : bool :=
  match pathname with
  | "" => false
  | String c rest =>
      match rest with
      | String c' _ =>
          ((c =? "/") && (c' =? "/"))%char || hasDoubleSlash rest
      | "" => false
      end
  end.

(** ** The request, its configuration and the three ways to answer *)

(** [config.trailingSlash]: [undefined], [false] or [true]. *)
Inductive TrailingSlash :=
| Unspecified   (* trailingSlash === undefined *)
| ForceAbsent   (* trailingSlash === false *)
| ForcePresent. (* trailingSlash === true *)

(** [req.superstatic]. *)
Record Config := { trailingSlash : TrailingSlash; cleanUrls : bool }.

(** The two fields of [req] the middleware reads: [req.url], the target
    relative to the mount point, and [req.originalUrl], the target as
    received. *)
Record Request := { url : string; originalUrl : string }.

(** A request that reaches a middleware mounted at the root. *)
Definition GET (target : string) : Request :=
  {| url := target; originalUrl := target |}.

(** What the promise returned by [res.superstatic.provider(req, path)]
    settles to: a content descriptor, a falsy value, or a rejection. *)
Inductive Answer (D E : Type) :=
| Found (result : D)
| Absent
| Failed (err : E).
Arguments Found {D E} result.
Arguments Absent {D E}.
Arguments Failed {D E} err.

(** How the middleware answers: [res.superstatic.handleFileStream({file},
    result)], [res.superstatic.handle({redirect})] or [next()]. *)
Inductive Decision (D : Type) :=
| ServeFile (file : string) (result : D)
| Redirect (location : string)
| Defer.
Arguments ServeFile {D} file result.
Arguments Redirect {D} location.
Arguments Defer {D}.

Definition TrailingSlash_eqb (a b : TrailingSlash) : bool :=
  match a, b with
  | Unspecified, Unspecified | ForceAbsent, ForceAbsent
  | ForcePresent, ForcePresent => true
  | _, _ => false
  end.

(** ** The promise chain as a state-and-error monad

    The provider is asynchronous and may look at a store that changes between
    calls: a call takes the provider's state and returns an answer and the
    next state.  A rejection skips every later [.then] and lands in the final
    [.catch], which hands the error to [res.superstatic.handleError]. *)

Definition Provider (D E S : Type) : Type := string -> S -> Answer D E * S.

Definition Promise (E S A : Type) : Type := S -> (E + A) * S.

Definition resolved {E S A : Type} (a : A) : Promise E S A :=
  fun s => (inr a, s).

Definition andThen {E S A B : Type}
    (m : Promise E S A) (k : A -> Promise E S B) : Promise E S B :=
  fun s =>
    match m s with
    | (inl err, s') => (inl err, s')
    | (inr a, s') => k a s'
    end.

Notation "x <- m ;; k" := (andThen m (fun x => k))
  (at level 61, m at next level, right associativity).

(** One call of the provider; a falsy result is [None]. *)
Definition ask {D E S : Type} (provider : Provider D E S) (path : string)
  : Promise E S (option D) :=
  fun s =>
    match provider path s with
    | (Found result, s') => (inr (Some result), s')
    | (Absent, s') => (inr None, s')
    | (Failed err, s') => (inl err, s')
    end.

(** ** lib/middleware/files.js *)

(** We cannot redirect to "", redirect to "/" instead. *)
Definition normalizeRedirectPath (path : string) : string :=
  match path with "" => "/" | _ => path end.

Definition pathnameOf (req : Request) : string :=
  pathutils.normalizeMultiSlashes (url.pathname (url.parse (url req))).

Definition searchOf (req : Request) : string :=
  url.search (url.parse (url req)).

Definition originalPathnameOf (req : Request) : string :=
  pathutils.normalizeMultiSlashes (url.pathname (url.parse (originalUrl req))).

Section Files.
Context {D E S : Type}.

Import pathutils lodash.

(** The middleware returned by [module.exports()]; the specification calls
    it [resolve]. *)
Definition files (config : Config) (provider : Provider D E S)
    (req : Request) : Promise E S (Decision D) :=
  let trailingSlashBehavior := trailingSlash config in
  let pathname := pathnameOf req in
  let search := searchOf req in
  let originalPathname := originalPathnameOf req in
  let cleanUrlRules := cleanUrls config in
  (* Exact file always wins. *)
  result <- ask provider pathname ;;
  match result with
  | Some result =>
      if cleanUrlRules && endsWith originalPathname ".html" then
        let redirPath := removeTrailingString originalPathname ".html" in
        let redirPath :=
          if endsWith redirPath "/index"
          then removeTrailingString redirPath "/index"
          else redirPath in
        let redirPath :=
          if TrailingSlash_eqb trailingSlashBehavior ForcePresent
          then addTrailingSlash redirPath
          else redirPath in
        resolved (Redirect (normalizeRedirectPath (redirPath ++ search)))
      else resolved (ServeFile pathname result)
  | None =>
      (* Now, let's consider the trailing slash. *)
      let hasTrailingSlash := hasTrailingSlash originalPathname in
      let pathAsDirectoryWithIndex :=
        asDirectoryIndex (addTrailingSlash pathname) in
      pathAsDirectoryWithIndexResult <-
        ask provider pathAsDirectoryWithIndex ;;
      match pathAsDirectoryWithIndexResult with
      | Some pathAsDirectoryWithIndexResult =>
          if TrailingSlash_eqb trailingSlashBehavior Unspecified
             && negb hasTrailingSlash && negb cleanUrlRules
          then
            resolved (Redirect (addTrailingSlash originalPathname ++ search))
          else if TrailingSlash_eqb trailingSlashBehavior ForceAbsent
                  && hasTrailingSlash && negb (pathname =? "/")
          then
            (* No infinite redirects *)
            resolved (Redirect (normalizeRedirectPath
                        (removeTrailingSlash originalPathname ++ search)))
          else if TrailingSlash_eqb trailingSlashBehavior ForcePresent
                  && negb hasTrailingSlash
          then
            resolved (Redirect (addTrailingSlash originalPathname ++ search))
          else
            resolved (ServeFile pathAsDirectoryWithIndex
                        pathAsDirectoryWithIndexResult)
      | None =>
          if cleanUrlRules then
            let appendedPath :=
              if hasTrailingSlash then
                if negb (TrailingSlash_eqb trailingSlashBehavior Unspecified)
                then removeTrailingString pathname "/" ++ ".html"
                else pathname
              else pathname ++ ".html" in
            let appendedOriginalPath :=
              if hasTrailingSlash then
                if negb (TrailingSlash_eqb trailingSlashBehavior Unspecified)
                then removeTrailingString originalPathname "/" ++ ".html"
                else originalPathname
              else originalPathname ++ ".html" in
            appendedPathResult <- ask provider appendedPath ;;
            match appendedPathResult with
            | Some appendedPathResult =>
                if TrailingSlash_eqb trailingSlashBehavior ForceAbsent
                   && hasTrailingSlash
                then
                  resolved (Redirect (normalizeRedirectPath
                              (removeTrailingSlash originalPathname
                               ++ search)))
                else if TrailingSlash_eqb trailingSlashBehavior ForcePresent
                        && negb hasTrailingSlash
                then
                  let appendedOriginalPath :=
                    removeTrailingString appendedOriginalPath ".html" in
                  let appendedOriginalPath :=
                    removeTrailingString appendedOriginalPath "/index" in
                  resolved (Redirect
                              (addTrailingSlash appendedOriginalPath
                               ++ search))
                else if endsWith appendedOriginalPath "/index.html"
                then
                  resolved (Redirect (normalizeRedirectPath
                              (removeTrailingString appendedOriginalPath
                                 "/index.html" ++ search)))
                else
                  resolved (ServeFile appendedPath appendedPathResult)
            | None => resolved Defer
            end
          else resolved Defer
      end
  end.

End Files.

(** ** Running the middleware *)

(** A provider over content that does not change while the request is
    resolved: the same path always gets the same answer (the specification's
    deterministic existence function). *)
Definition static {D E : Type} (existsFn : string -> Answer D E)
  : Provider D E unit :=
  fun path s => (existsFn path, s).

(** The decision (or the error) for a request over unchanging content. *)
Definition decide {D E : Type} (config : Config)
    (existsFn : string -> Answer D E) (req : Request) : E + Decision D :=
  fst (files config (static existsFn) req tt).

(** A provider that also keeps a log of its calls, oldest first: the path
    asked for and the answer given. *)
Definition recording {D E S : Type} (provider : Provider D E S)
  : Provider D E (S * list (string * Answer D E)) :=
  fun path st =>
    let (a, s') := provider path (fst st) in
    (a, (s', (snd st ++ [(path, a)])%list)).

(** The calls one resolution makes to the provider, in the order made. *)
Definition calls {D E S : Type} (config : Config) (provider : Provider D E S)
    (req : Request) (s : S) : list (string * Answer D E) :=
  snd (snd (files config (recording provider) req (s, []))).

(** The paths one resolution asks an unchanging provider for. *)
Definition queries {D E : Type} (config : Config)
    (existsFn : string -> Answer D E) (req : Request) : list string :=
  map fst (calls config (static existsFn) req tt).

(** A provider that ignores the path and gives its answers from a script,
    one per call; once the script is used up everything is absent. *)
Definition scripted {D E : Type} : Provider D E (list (Answer D E)) :=
  fun _ script =>
    match script with
    | a :: rest => (a, rest)
    | [] => (Absent, [])
    end.

(** ** The content tree of the repository's tests

    [foo.html], [foo/index.html] and [foo/bar.html] under the public
    directory; a descriptor is modelled by the file's content. *)

Definition testContent (path : string) : Answer string string :=
  if path =? "/foo.html" then Found "foo.html content"
  else if path =? "/foo/index.html" then Found "foo/index.html content"
  else if path =? "/foo/bar.html" then Found "foo/bar.html content"
  else Absent.

(** A provider for a list of files, each its own descriptor. *)
Definition contentOf (tree : list string) (path : string)
  : Answer string string :=
  if existsb (String.eqb path) tree then Found path else Absent.

(** What a test of the table expects: [wantRedirect], [wantNotFound] or
    [wantContent]. *)
Inductive Want :=
| wantRedirect (location : string)
| wantNotFound
| wantContent (content : string).

Definition meets (want : Want) (got : string + Decision string) : bool :=
  match want, got with
  | wantRedirect l, inr (Redirect l') => l =? l'
  | wantNotFound, inr Defer => true
  | wantContent c, inr (ServeFile _ c') => c =? c'
  | _, _ => false
  end.

(** One request of the table, under the base path the middleware is mounted
    at: connect strips the base path from [req.url] and leaves it in
    [req.originalUrl]. *)
Definition passes (basePath : string) (config : Config)
    (test : string * Want) : bool :=
  let (path, want) := test in
  let want :=
    match want with
    | wantRedirect l => wantRedirect (basePath ++ l)
    | w => w
    end in
  meets want
    (decide config testContent
       {| url := path; originalUrl := basePath ++ path |}).

Definition testTable : list (Config * list (string * Want)) :=
  [ ({| trailingSlash := Unspecified; cleanUrls := false |},
     [ ("/foo", wantRedirect "/foo/");
       ("/foo.html", wantContent "foo.html content");
       ("/foo.html/", wantNotFound);
       ("/foo/", wantContent "foo/index.html content");
       ("/foo/bar", wantNotFound);
       ("/foo/bar.html", wantContent "foo/bar.html content");
       ("/foo/bar.html/", wantNotFound);
       ("/foo/bar/", wantNotFound);
       ("/foo/index", wantNotFound);
       ("/foo/index.html", wantContent "foo/index.html content");
       ("/foo/index.html/", wantNotFound) ]);
    ({| trailingSlash := ForceAbsent; cleanUrls := false |},
     [ ("/foo", wantContent "foo/index.html content");
       ("/foo.html", wantContent "foo.html content");
       ("/foo.html/", wantNotFound);
       ("/foo/", wantRedirect "/foo");
       ("/foo/bar", wantNotFound);
       ("/foo/bar.html", wantContent "foo/bar.html content");
       ("/foo/bar.html/", wantNotFound);
       ("/foo/bar/", wantNotFound);
       ("/foo/index", wantNotFound);
       ("/foo/index.html", wantContent "foo/index.html content");
       ("/foo/index.html/", wantNotFound);
       ("/foo////", wantRedirect "/foo") ]);
    ({| trailingSlash := ForcePresent; cleanUrls := false |},
     [ ("/foo", wantRedirect "/foo/");
       ("/foo.html", wantContent "foo.html content");
       ("/foo.html/", wantNotFound);
       ("/foo/", wantContent "foo/index.html content");
       ("/foo/bar", wantNotFound);
       ("/foo/bar.html", wantContent "foo/bar.html content");
       ("/foo/bar.html/", wantNotFound);
       ("/foo/bar/", wantNotFound);
       ("/foo/index", wantNotFound);
       ("/foo/index.html", wantContent "foo/index.html content");
       ("/foo/index.html/", wantNotFound) ]);
    ({| trailingSlash := Unspecified; cleanUrls := true |},
     [ ("/foo", wantContent "foo/index.html content");
       ("/foo.html", wantRedirect "/foo");
       ("/foo.html/", wantNotFound);
       ("/foo/", wantContent "foo/index.html content");
       ("/foo/bar", wantContent "foo/bar.html content");
       ("/foo/bar.html", wantRedirect "/foo/bar");
       ("/foo/bar.html/", wantNotFound);
       ("/foo/bar/", wantNotFound);
       ("/foo/index", wantRedirect "/foo");
       ("/foo/index.html", wantRedirect "/foo");
       ("/foo/index.html/", wantNotFound) ]);
    ({| trailingSlash := ForceAbsent; cleanUrls := true |},
     [ ("/foo", wantContent "foo/index.html content");
       ("/foo.html", wantRedirect "/foo");
       ("/foo.html/", wantNotFound);
       ("/foo/", wantRedirect "/foo");
       ("/foo/bar", wantContent "foo/bar.html content");
       ("/foo/bar.html", wantRedirect "/foo/bar");
       ("/foo/bar.html/", wantNotFound);
       ("/foo/bar/", wantRedirect "/foo/bar");
       ("/foo/index", wantRedirect "/foo");
       ("/foo/index.html", wantRedirect "/foo");
       ("/foo/index.html/", wantNotFound) ]);
    ({| trailingSlash := ForcePresent; cleanUrls := true |},
     [ ("/foo", wantRedirect "/foo/");
       ("/foo.html", wantRedirect "/foo/");
       ("/foo.html/", wantNotFound);
       ("/foo/", wantContent "foo/index.html content");
       ("/foo/bar", wantRedirect "/foo/bar/");
       ("/foo/bar.html", wantRedirect "/foo/bar/");
       ("/foo/bar.html/", wantNotFound);
       ("/foo/bar/", wantContent "foo/bar.html content");
       ("/foo/index", wantRedirect "/foo/");
       ("/foo/index.html", wantRedirect "/foo/");
       ("/foo/index.html/", wantNotFound) ]) ].

Definition tablePasses (basePath : string) : bool :=
  forallb (fun row => forallb (passes basePath (fst row)) (snd row)) testTable.

(** ** The decisions section 4.2 of the specification prescribes

    Each definition follows the words of the specification; the theorems
    below compare them with [files].  Where the middleware departs from the
    words, the definition named [...Stated] keeps them and a second one gives
    what the middleware does. *)

Module Spec.
Import lodash pathutils.

(** Step 2: "normalizedPath + /index.html (ensuring exactly one slash is
    inserted before index.html)". *)
Definition indexPath (normalizedPath : string) : string :=
  removeTrailingSlash normalizedPath ++ "/index.html".

(** Step 1: "stripping the trailing .html, then stripping a trailing /index
    if present.  If trailingSlash == ForcePresent, append a trailing slash to
    the result" -- through [addTrailingSlash], which leaves alone a path that
    ends in a slash. *)
Definition cleanUrlTarget (ts : TrailingSlash) (originalPath : string)
  : string :=
  let target := removeTrailingString originalPath ".html" in
  let target := removeTrailingString target "/index" in
  match ts with
  | ForcePresent => addTrailingSlash target
  | _ => target
  end.

(** "An empty result normalized to "/"" (sections 3 and 4.2), written out:
    the empty location becomes "/", any other location is left as it is. *)
Definition orRoot (location : string) : string :=
  if location =? "" then "/" else location.


(** Step 1, the whole location as the middleware computes it: under
    ForcePresent the slash is appended to a target that does not end in one
    already, and a target that does is left alone. *)
Definition cleanUrlLocation (ts : TrailingSlash)
    (originalPath search : string) : string :=
  let target := removeTrailingString originalPath ".html" in
  let target := removeTrailingString target "/index" in
  let target :=
    match ts with
    | ForcePresent => if endsWith target "/" then target else target ++ "/"
    | _ => target
    end in
  orRoot (target ++ search).

(** Step 2, once the directory index is found: the trailing-slash policy
    applied against the original path. *)
Definition directoryIndexDecision {D : Type} (config : Config)
    (originalPath normalizedPath search : string) (descriptor : D)
  : Decision D :=
  let slash := hasTrailingSlash originalPath in
  let serve := ServeFile (indexPath normalizedPath) descriptor in
  match trailingSlash config with
  | Unspecified =>
      if negb slash && negb (cleanUrls config)
      then Redirect (originalPath ++ "/" ++ search)
      else serve
  | ForceAbsent =>
      if slash && negb (normalizedPath =? "/")
      then Redirect (normalizeRedirectPath
                       (removeTrailingSlash originalPath ++ search))
      else serve
  | ForcePresent =>
      if negb slash
      then Redirect (originalPath ++ "/" ++ search)
      else serve
  end.

(** Step 3: the candidate built from a path, or none. *)
Definition cleanUrlCandidate (ts : TrailingSlash) (slash : bool)
    (path : string) : option string :=
  if slash then
    match ts with
    | Unspecified => None
    | _ => Some (removeTrailingSlash path ++ ".html")
    end
  else Some (path ++ ".html").

(** Step 3: the path the existence function is asked for; without a
    candidate the middleware asks for the path itself once more. *)
Definition cleanUrlQuery (ts : TrailingSlash) (slash : bool)
    (path : string) : string :=
  match cleanUrlCandidate ts slash path with
  | Some candidate => candidate
  | None => path
  end.



End Spec.

(** ** Predicates the theorems are stated with *)


(** Was the call rejected? *)
Definition isFailed {D E : Type} (a : Answer D E) : bool :=
  match a with Failed _ => true | _ => false end.

(** The courses one resolution can take: the calls made, each with its
    answer, and the outcome they lead to.  [p] is the normalized path,
    [index] its directory index and [candidate] the path of the third
    call. *)
Inductive Course {D E : Type} (config : Config) (p index candidate : string)
  : list (string * Answer D E) -> E + Decision D -> Prop :=
| exact_found result decision :
    Course config p index candidate [(p, Found result)] (inr decision)
| exact_failed err :
    Course config p index candidate [(p, Failed err)] (inl err)
| index_found result decision :
    Course config p index candidate
      [(p, Absent); (index, Found result)] (inr decision)
| index_failed err :
    Course config p index candidate
      [(p, Absent); (index, Failed err)] (inl err)
| nothing_found :
    cleanUrls config = false ->
    Course config p index candidate
      [(p, Absent); (index, Absent)] (inr Defer)
| candidate_found result decision :
    cleanUrls config = true ->
    Course config p index candidate
      [(p, Absent); (index, Absent); (candidate, Found result)]
      (inr decision)
| candidate_absent :
    cleanUrls config = true ->
    Course config p index candidate
      [(p, Absent); (index, Absent); (candidate, Absent)] (inr Defer)
| candidate_failed err :
    cleanUrls config = true ->
    Course config p index candidate
      [(p, Absent); (index, Absent); (candidate, Failed err)] (inl err).

(** The target with every run of slashes in its path collapsed; the search
    string is left alone. *)
Definition collapseTarget (target : string) : string :=
  pathutils.normalizeMultiSlashes (url.pathname_of target)
  ++ url.search_of target.

Definition collapseRequest (req : Request) : Request :=
  {| url := collapseTarget (url req);
     originalUrl := collapseTarget (originalUrl req) |}.

(** Is the outcome of a resolution a redirect? *)
Definition redirects {D E : Type} (outcome : E + Decision D) : bool :=
  match outcome with
  | inr (Redirect _) => true
  | _ => false
  end.

(** A path is tidy when it holds no "?" and no run of slashes. *)
Definition tidy (p : string) : Prop :=
  url.pathname_of p = p /\ hasDoubleSlash p = false.

Create HintDb tidy.

(** Does the path satisfy the trailing-slash policy?  Without a policy and
    without clean URLs a directory is addressed with its slash. *)
Definition compliant (config : Config) (path : string) : bool :=
  match trailingSlash config with
  | Unspecified => cleanUrls config || pathutils.hasTrailingSlash path
  | ForceAbsent => negb (pathutils.hasTrailingSlash path)
  | ForcePresent => pathutils.hasTrailingSlash path
  end.

(** A path in canonical form under clean URLs: it does not end in ".html",
    it does not end in "/index" once its trailing slash is removed, and its
    trailing slash is as the policy wants it (absent under ForceAbsent,
    present under ForcePresent). *)
Definition canonical (ts : TrailingSlash) (path : string) : bool :=
  negb (lodash.endsWith path ".html")
  && negb (lodash.endsWith (pathutils.removeTrailingSlash path) "/index")
  && match ts with
     | Unspecified => true
     | ForceAbsent => negb (pathutils.hasTrailingSlash path)
     | ForcePresent => pathutils.hasTrailingSlash path
     end.

(** ** Mounting under a base path *)

(** The request the middleware sees when it is mounted at [basePath], as in
    the tests ([app.use(basePath, middleware)]): connect strips the base path
    from [req.url] and leaves it in [req.originalUrl]. *)
Definition mounted (basePath target : string) : Request :=
  {| url := target; originalUrl := basePath ++ target |}.

(** Does the path start with a slash? *)
Definition rooted (p : string) : bool :=
  match p with
  | String c _ => (c =? "/")%char
  | "" => false
  end.

(** The paths the middleware meets under the base path: rooted, or empty
    once a suffix is stripped. *)
Definition rootedOrEmpty (z : string) : Prop := z = "" \/ rooted z = true.

(** Is there no slash in the string? *)
Fixpoint slashFree (s : string) : bool :=
  match s with
  | "" => true
  | String c rest => negb (c =? "/")%char && slashFree rest
  end.

(** How the outcome under a base path relates to the outcome at the root:
    the same, but for a redirect, whose location gains the base path (an
    empty location becomes "/" at the root, and the bare base path under
    it). *)
Definition rebased {D E : Type} (basePath : string)
    (atRoot underBase : E + Decision D) : Prop :=
  match atRoot, underBase with
  | inr (Redirect l), inr (Redirect l') =>
      l' = basePath ++ l \/ (l = "/" /\ l' = basePath)
  | _, _ => underBase = atRoot
  end.

(** * Properties *)

(** The model agrees with every row of the tests' table, mounted at the root
    and under a base path. *)
Example table_at_root : tablePasses "" = true.
Proof. vm_compute. reflexivity. Qed.

Example table_under_base_path : tablePasses "/base/path" = true.
Proof. vm_compute. reflexivity. Qed.
(** ** Facts about [string] missing from the standard library *)

Lemma append_nil_r (s : string) : s ++ "" = s.
Proof. induction s as [|c s IH]; simpl; [reflexivity | now rewrite IH]. Qed.

Lemma append_assoc (a b c : string) : (a ++ b) ++ c = a ++ (b ++ c).
Proof. induction a as [|x a IH]; simpl; [reflexivity | now rewrite IH]. Qed.

Lemma length_append (a b : string) : length (a ++ b) = length a + length b.
Proof. induction a as [|x a IH]; simpl; [reflexivity | now rewrite IH]. Qed.

Lemma append_eq_nil (a b : string) : a ++ b = "" -> a = "" /\ b = "".
Proof. destruct a; simpl; [auto | discriminate]. Qed.

(** Cancellation on the right: two strings with a common suffix. *)
Lemma append_cancel_r (c a b : string) : a ++ c = b ++ c -> a = b.
Proof.
  revert b; induction a as [|x a IH]; intros [|y b] H; simpl in H.
  - reflexivity.
  - exfalso. apply (f_equal length) in H. simpl in H.
    rewrite length_append in H. lia.
  - exfalso. apply (f_equal length) in H. simpl in H.
    rewrite length_append in H. lia.
  - injection H as -> H. f_equal. now apply IH.
Qed.

Lemma substring_append (a b : string) : substring 0 (length a) (a ++ b) = a.
Proof.
  induction a as [|x a IH]; simpl.
  - now destruct b.
  - now rewrite IH.
Qed.

Lemma append_cancel_l (a b c : string) : a ++ b = a ++ c -> b = c.
Proof.
  induction a as [|x a IH]; simpl; intros H; [assumption|].
  injection H as H. now apply IH.
Qed.

Lemma append_neq_self (a b : string) : b <> "" -> a ++ b <> a.
Proof.
  intros Hb H. apply (f_equal length) in H. rewrite length_append in H.
  destruct b; [now apply Hb | simpl in H; lia].
Qed.

(** ** Facts about the helpers *)

Section HelperFacts.
Import lodash pathutils.

Lemma endsWith_nil (target : string) : endsWith "" target = ("" =? target).
Proof. simpl. apply orb_false_r. Qed.

Lemma endsWith_cons (c : ascii) (s target : string) :
  endsWith (String c s) target
  = (String c s =? target) || endsWith s target.
Proof. reflexivity. Qed.

(** [endsWith] finds exactly the strings that have [target] as a suffix. *)
Lemma endsWith_spec (s target : string) :
  endsWith s target = true <-> exists front, s = front ++ target.
Proof.
  induction s as [|c s IH].
  - rewrite endsWith_nil, String.eqb_eq. split.
    + intros <-. now exists "".
    + intros [front H]. symmetry in H. now apply append_eq_nil in H.
  - rewrite endsWith_cons, orb_true_iff, String.eqb_eq, IH. split.
    + intros [<- | [front ->]]; [now exists "" | now exists (String c front)].
    + intros [[|x front] H]; simpl in H; [now left|].
      injection H as _ ->. right. now exists front.
Qed.

Lemma endsWith_append (front target : string) :
  endsWith (front ++ target) target = true.
Proof. apply endsWith_spec. now exists front. Qed.

Lemma endsWith_false (s target : string) :
  endsWith s target = false <-> forall front, s <> front ++ target.
Proof.
  rewrite <- not_true_iff_false, endsWith_spec. split.
  - intros H front E. apply H. now exists front.
  - intros H [front E]. now apply (H front).
Qed.

(** Suffixes compare from the right: a common tail can be dropped. *)
Lemma endsWith_tail (s target tail : string) :
  endsWith (s ++ tail) (target ++ tail) = endsWith s target.
Proof.
  destruct (endsWith s target) eqn:E.
  - apply endsWith_spec in E as [front ->]. apply endsWith_spec.
    exists front. now rewrite append_assoc.
  - apply endsWith_false. intros front H. rewrite <- append_assoc in H.
    apply append_cancel_r in H. revert H. now apply endsWith_false.
Qed.

(** Two one-character tails that differ exclude each other. *)
Lemma endsWith_other_tail (s target : string) (c c' : ascii) :
  c <> c' -> endsWith s (String c "") = true ->
  endsWith s (target ++ String c' "") = false.
Proof.
  intros Hc [front ->]%endsWith_spec. apply endsWith_false. intros front' H.
  rewrite <- append_assoc in H.
  assert (L : forall a b x y, a ++ String x "" = b ++ String y "" -> x = y).
  { induction a as [|h a IH]; intros [|h' b] x y E; simpl in E.
    - now injection E.
    - injection E as _ E. destruct b; discriminate.
    - injection E as _ E. destruct a; discriminate.
    - injection E as _ E. now apply IH in E. }
  now apply L in H.
Qed.

Lemma removeTrailingString_append (front rm : string) :
  removeTrailingString (front ++ rm) rm = front.
Proof.
  unfold removeTrailingString. rewrite endsWith_append, length_append.
  replace (length front + length rm - length rm) with (length front) by lia.
  apply substring_append.
Qed.

Lemma removeTrailingString_other (s rm : string) :
  endsWith s rm = false -> removeTrailingString s rm = s.
Proof. unfold removeTrailingString. now intros ->. Qed.

(** Stripping a suffix leaves a prefix of the string. *)
Lemma removeTrailingString_prefix (s rm : string) :
  exists tail, s = removeTrailingString s rm ++ tail.
Proof.
  destruct (endsWith s rm) eqn:E.
  - apply endsWith_spec in E as [front ->]. exists rm.
    now rewrite removeTrailingString_append.
  - exists "". now rewrite removeTrailingString_other, append_nil_r.
Qed.

Lemma hasTrailingSlash_append (front : string) :
  hasTrailingSlash (front ++ "/") = true.
Proof. apply endsWith_append. Qed.

Lemma addTrailingSlash_has (p : string) :
  hasTrailingSlash (addTrailingSlash p) = true.
Proof.
  unfold addTrailingSlash. destruct (hasTrailingSlash p) eqn:E;
    [assumption | apply hasTrailingSlash_append].
Qed.

Lemma addTrailingSlash_lacking (p : string) :
  hasTrailingSlash p = false -> addTrailingSlash p = p ++ "/".
Proof. unfold addTrailingSlash. now intros ->. Qed.

Lemma addTrailingSlash_idem (p : string) :
  addTrailingSlash (addTrailingSlash p) = addTrailingSlash p.
Proof.
  unfold addTrailingSlash at 1. now rewrite addTrailingSlash_has.
Qed.

End HelperFacts.

(** ** Facts about slash runs *)

Section SlashFacts.
Import lodash pathutils.

Lemma normalizeMultiSlashes_cons2 (c c' : ascii) (rest : string) :
  normalizeMultiSlashes (String c (String c' rest))
  = if ((c =? "/") && (c' =? "/"))%char
    then normalizeMultiSlashes (String c' rest)
    else String c (normalizeMultiSlashes (String c' rest)).
Proof. reflexivity. Qed.

(** Collapsing keeps the first character. *)
Lemma normalizeMultiSlashes_head (c : ascii) (rest : string) :
  exists tail, normalizeMultiSlashes (String c rest) = String c tail.
Proof.
  revert c. induction rest as [|c' rest IH]; intros c.
  - now exists "".
  - rewrite normalizeMultiSlashes_cons2.
    destruct ((c =? "/") && (c' =? "/"))%char eqn:E.
    + apply andb_true_iff in E as [->%Ascii.eqb_eq ->%Ascii.eqb_eq].
      apply IH.
    + eexists. reflexivity.
Qed.

Lemma hasDoubleSlash_cons2 (c c' : ascii) (rest : string) :
  hasDoubleSlash (String c (String c' rest))
  = ((c =? "/") && (c' =? "/"))%char || hasDoubleSlash (String c' rest).
Proof. reflexivity. Qed.

(** The collapsed path has no run of slashes left. *)
Lemma normalizeMultiSlashes_collapsed (s : string) :
  hasDoubleSlash (normalizeMultiSlashes s) = false.
Proof.
  induction s as [|c s IH]; [reflexivity|].
  destruct s as [|c' s]; [reflexivity|].
  rewrite normalizeMultiSlashes_cons2.
  destruct ((c =? "/") && (c' =? "/"))%char eqn:E; [assumption|].
  destruct (normalizeMultiSlashes_head c' s) as [tail Ht].
  rewrite Ht in *. rewrite hasDoubleSlash_cons2, E, IH. reflexivity.
Qed.

(** A path without a run of slashes is left as it is. *)
Lemma normalizeMultiSlashes_fixed (s : string) :
  hasDoubleSlash s = false -> normalizeMultiSlashes s = s.
Proof.
  induction s as [|c s IH]; [reflexivity|].
  destruct s as [|c' s]; [reflexivity|].
  rewrite hasDoubleSlash_cons2, normalizeMultiSlashes_cons2.
  intros [-> H]%orb_false_iff. now rewrite IH.
Qed.

Lemma normalizeMultiSlashes_idem (s : string) :
  normalizeMultiSlashes (normalizeMultiSlashes s) = normalizeMultiSlashes s.
Proof.
  apply normalizeMultiSlashes_fixed, normalizeMultiSlashes_collapsed.
Qed.

(** Collapsing neither adds nor removes a trailing slash. *)
Lemma hasTrailingSlash_normalizeMultiSlashes (s : string) :
  hasTrailingSlash (normalizeMultiSlashes s) = hasTrailingSlash s.
Proof.
  unfold hasTrailingSlash.
  induction s as [|c s IH]; [reflexivity|].
  destruct s as [|c' s]; [reflexivity|].
  rewrite normalizeMultiSlashes_cons2.
  rewrite (endsWith_cons c (String c' s)).
  replace (String c (String c' s) =? "/") with false
    by (simpl; now destruct (c =? "/")%char).
  destruct ((c =? "/") && (c' =? "/"))%char; [exact IH|].
  destruct (normalizeMultiSlashes_head c' s) as [tail Ht].
  rewrite endsWith_cons, IH, Ht.
  replace (String c (String c' tail) =? "/") with false
    by (simpl; now destruct (c =? "/")%char).
  reflexivity.
Qed.

(** A prefix of a path without slash runs has none either. *)
Lemma hasDoubleSlash_prefix (a b : string) :
  hasDoubleSlash (a ++ b) = false -> hasDoubleSlash a = false.
Proof.
  induction a as [|c a IH]; [reflexivity|].
  destruct a as [|c' a]; [reflexivity|].
  change ((String c (String c' a)) ++ b)
    with (String c (String c' a ++ b)).
  change (String c' a ++ b) with (String c' (a ++ b)) at 1.
  rewrite !hasDoubleSlash_cons2.
  intros [-> H]%orb_false_iff. now apply IH.
Qed.

(** In a path without slash runs, what stands before a slash does not end
    in a slash. *)
Lemma hasDoubleSlash_before_slash (a b : string) :
  hasDoubleSlash (a ++ String "/" b) = false -> hasTrailingSlash a = false.
Proof.
  unfold hasTrailingSlash.
  induction a as [|c a IH]; [reflexivity|].
  intros H. rewrite endsWith_cons. apply orb_false_iff. split.
  - destruct a as [|c' a]; [|simpl; now destruct (c =? "/")%char].
    simpl in H. apply orb_false_iff in H as [H _].
    rewrite andb_true_r in H. simpl. now rewrite H.
  - apply IH. destruct a as [|c' a].
    + simpl in H |- *. now apply orb_false_iff in H as [_ H].
    + change ((String c (String c' a)) ++ String "/" b)
        with (String c (String c' (a ++ String "/" b))) in H.
      rewrite hasDoubleSlash_cons2 in H.
      now apply orb_false_iff in H as [_ H].
Qed.

(** A slash may be added to a path that has none at its end. *)
Lemma hasDoubleSlash_add_slash (a : string) :
  hasDoubleSlash a = false -> hasTrailingSlash a = false ->
  hasDoubleSlash (a ++ "/") = false.
Proof.
  unfold hasTrailingSlash.
  induction a as [|c a IH]; [reflexivity|].
  rewrite endsWith_cons. intros Hd [Hc He]%orb_false_iff.
  destruct a as [|c' a].
  - simpl in Hc |- *. destruct (c =? "/")%char; [discriminate|reflexivity].
  - change ((String c (String c' a)) ++ "/")
      with (String c (String c' a ++ "/")).
    change (String c' a ++ "/") with (String c' (a ++ "/")) at 1.
    rewrite hasDoubleSlash_cons2 in Hd |- *.
    apply orb_false_iff in Hd as [-> Hd]. now apply IH.
Qed.

Lemma hasDoubleSlash_addTrailingSlash (a : string) :
  hasDoubleSlash a = false -> hasDoubleSlash (addTrailingSlash a) = false.
Proof.
  intros H. unfold addTrailingSlash.
  destruct (hasTrailingSlash a) eqn:E;
    [assumption | now apply hasDoubleSlash_add_slash].
Qed.

Lemma hasDoubleSlash_removeTrailingString (s rm : string) :
  hasDoubleSlash s = false ->
  hasDoubleSlash (removeTrailingString s rm) = false.
Proof.
  destruct (removeTrailingString_prefix s rm) as [tail E].
  rewrite E at 1. apply hasDoubleSlash_prefix.
Qed.

End SlashFacts.

(** ** Facts about splitting a target at its query string *)

Section UrlFacts.
Import lodash pathutils url.

Lemma pathname_of_cons (c : ascii) (rest : string) :
  pathname_of (String c rest)
  = if (c =? "?")%char then "" else String c (pathname_of rest).
Proof. reflexivity. Qed.

Lemma search_of_cons (c : ascii) (rest : string) :
  search_of (String c rest)
  = if (c =? "?")%char then String c rest else search_of rest.
Proof. reflexivity. Qed.

(** The two halves make up the target. *)
Lemma pathname_search (t : string) : pathname_of t ++ search_of t = t.
Proof.
  induction t as [|c t IH]; [reflexivity|].
  rewrite pathname_of_cons, search_of_cons.
  destruct (c =? "?")%char; simpl; [reflexivity | now rewrite IH].
Qed.

(** The path holds no "?". *)
Lemma pathname_of_idem (t : string) :
  pathname_of (pathname_of t) = pathname_of t.
Proof.
  induction t as [|c t IH]; [reflexivity|].
  rewrite pathname_of_cons. destruct (c =? "?")%char eqn:E; [reflexivity|].
  now rewrite pathname_of_cons, E, IH.
Qed.

Lemma search_of_pathname (t : string) : search_of (pathname_of t) = "".
Proof.
  induction t as [|c t IH]; [reflexivity|].
  rewrite pathname_of_cons. destruct (c =? "?")%char eqn:E; [reflexivity|].
  now rewrite search_of_cons, E.
Qed.

(** The search string is empty or starts at a "?". *)
Lemma pathname_of_search (t : string) : pathname_of (search_of t) = "".
Proof.
  induction t as [|c t IH]; [reflexivity|].
  rewrite search_of_cons. destruct (c =? "?")%char eqn:E; [|assumption].
  now rewrite pathname_of_cons, E.
Qed.

Lemma search_of_idem (t : string) : search_of (search_of t) = search_of t.
Proof.
  induction t as [|c t IH]; [reflexivity|].
  rewrite search_of_cons. destruct (c =? "?")%char eqn:E; [|assumption].
  now rewrite search_of_cons, E.
Qed.

(** Appending to a path without "?" moves the split to the appended part. *)
Lemma pathname_of_append (a b : string) :
  pathname_of a = a -> pathname_of (a ++ b) = a ++ pathname_of b.
Proof.
  induction a as [|c a IH]; [reflexivity|].
  rewrite pathname_of_cons. simpl append. rewrite pathname_of_cons.
  destruct (c =? "?")%char; [discriminate|].
  intros [= H]. now rewrite IH.
Qed.

Lemma search_of_append (a b : string) :
  pathname_of a = a -> search_of (a ++ b) = search_of b.
Proof.
  induction a as [|c a IH]; [reflexivity|].
  rewrite pathname_of_cons. simpl append. rewrite search_of_cons.
  destruct (c =? "?")%char; [discriminate|].
  intros [= H]. now apply IH.
Qed.

(** A prefix of a path without "?" has none. *)
Lemma pathname_of_prefix (a b : string) :
  pathname_of (a ++ b) = a ++ b -> pathname_of a = a.
Proof.
  induction a as [|c a IH]; [reflexivity|].
  simpl append. rewrite !pathname_of_cons.
  destruct (c =? "?")%char; [discriminate|].
  intros [= H]. now rewrite IH.
Qed.

Lemma pathname_of_add_slash (a : string) :
  pathname_of a = a -> pathname_of (a ++ "/") = a ++ "/".
Proof. intros H. now rewrite pathname_of_append. Qed.

Lemma pathname_of_addTrailingSlash (a : string) :
  pathname_of a = a -> pathname_of (addTrailingSlash a) = addTrailingSlash a.
Proof.
  intros H. unfold addTrailingSlash.
  destruct (hasTrailingSlash a); [assumption | now apply pathname_of_add_slash].
Qed.

Lemma pathname_of_removeTrailingString (s rm : string) :
  pathname_of s = s ->
  pathname_of (removeTrailingString s rm) = removeTrailingString s rm.
Proof.
  destruct (removeTrailingString_prefix s rm) as [tail E].
  rewrite E at 1 2. apply pathname_of_prefix.
Qed.

(** Collapsing slash runs brings no "?" into a path. *)
Lemma pathname_of_normalizeMultiSlashes (s : string) :
  pathname_of s = s ->
  pathname_of (normalizeMultiSlashes s) = normalizeMultiSlashes s.
Proof.
  induction s as [|c s IH]; [reflexivity|].
  destruct s as [|c' s]; [now intros|].
  rewrite normalizeMultiSlashes_cons2, (pathname_of_cons c).
  destruct (c =? "?")%char eqn:E; [discriminate|].
  intros [= H]. specialize (IH H).
  destruct ((c =? "/") && (c' =? "/"))%char; [assumption|].
  now rewrite pathname_of_cons, E, IH.
Qed.

(** The path the middleware works on: no "?" and no slash run. *)
Lemma pathnameOf_tidy (req : Request) :
  pathname_of (pathnameOf req) = pathnameOf req
  /\ hasDoubleSlash (pathnameOf req) = false.
Proof.
  split.
  - apply pathname_of_normalizeMultiSlashes, pathname_of_idem.
  - apply normalizeMultiSlashes_collapsed.
Qed.

Lemma originalPathnameOf_tidy (req : Request) :
  pathname_of (originalPathnameOf req) = originalPathnameOf req
  /\ hasDoubleSlash (originalPathnameOf req) = false.
Proof.
  split.
  - apply pathname_of_normalizeMultiSlashes, pathname_of_idem.
  - apply normalizeMultiSlashes_collapsed.
Qed.

(** A request for a tidy path, mounted at the root, works on that path. *)
Lemma pathnameOf_GET (p : string) :
  pathname_of p = p -> hasDoubleSlash p = false ->
  pathnameOf (GET p) = p /\ originalPathnameOf (GET p) = p
  /\ searchOf (GET p) = "".
Proof.
  intros Hq Hd. unfold pathnameOf, originalPathnameOf, searchOf. simpl.
  rewrite Hq, (normalizeMultiSlashes_fixed _ Hd).
  repeat split. rewrite <- Hq. apply search_of_pathname.
Qed.

End UrlFacts.

(** ** The three steps of the middleware *)

Section Steps.
Import lodash pathutils.
Context {D E : Type}.
Implicit Types (config : Config) (existsFn : string -> Answer D E)
  (req : Request).

Ltac run :=
  cbv beta iota zeta delta
    [decide queries calls files andThen ask static recording resolved
     fst snd map].

(** The path asked for in step 2 is the specification's index path. *)
Lemma asDirectoryIndex_indexPath (p : string) :
  asDirectoryIndex (addTrailingSlash p) = Spec.indexPath p.
Proof.
  unfold asDirectoryIndex, Spec.indexPath, removeTrailingSlash.
  rewrite addTrailingSlash_idem. unfold addTrailingSlash.
  destruct (hasTrailingSlash p) eqn:Hs.
  - apply endsWith_spec in Hs as [front ->].
    rewrite removeTrailingString_append. now rewrite append_assoc.
  - rewrite removeTrailingString_other by exact Hs. now rewrite append_assoc.
Qed.

(** C2 -- exact-match precedence: when the existence function returns a
    descriptor for the normalized path, and it is not the case that cleanUrls
    is enabled and the slash-collapsed original path ends in ".html", the
    decision is ServeFile of the normalized path with that descriptor --
    whatever the existence function says of any other path (a directory
    index, a clean-URL sibling), none of which is even asked for. *)
Theorem exact_match_precedence config existsFn req (descriptor : D) :
  existsFn (pathnameOf req) = Found descriptor ->
  ~ (cleanUrls config = true
     /\ endsWith (originalPathnameOf req) ".html" = true) ->
  decide config existsFn req = inr (ServeFile (pathnameOf req) descriptor)
  /\ queries config existsFn req = [pathnameOf req].
Proof.
  intros Hfound Hclean. run. rewrite Hfound.
  destruct (cleanUrls config && endsWith (originalPathnameOf req) ".html")
    eqn:Hb.
  - exfalso. apply Hclean. now apply andb_true_iff in Hb.
  - now split.
Qed.



(** C4 -- step-2 directory-index dispatch: when no content exists at the
    normalized path but content exists at its directory index (the normalized
    path, one slash, "index.html"), the decision is
    Redirect(originalPath + "/" + search) if trailingSlash is Unspecified, the
    original path lacks a trailing slash and cleanUrls is disabled;
    Redirect(removeTrailingSlash(originalPath) + search), an empty result
    becoming "/" (none is empty without a base path, see
    [removed_slash_location]), if trailingSlash is ForceAbsent, the original
    path has a trailing slash and the normalized path is not the root "/";
    Redirect(originalPath + "/" + search) if trailingSlash is ForcePresent
    and the original path lacks a trailing slash; and ServeFile of the
    directory index with its descriptor otherwise. *)
Theorem directory_index_dispatch config existsFn req (descriptor : D) :
  existsFn (pathnameOf req) = Absent ->
  existsFn (Spec.indexPath (pathnameOf req)) = Found descriptor ->
  decide config existsFn req
  = inr (Spec.directoryIndexDecision config (originalPathnameOf req)
           (pathnameOf req) (searchOf req) descriptor).
Proof.
  intros Habsent Hindex. run.
  rewrite Habsent, asDirectoryIndex_indexPath, Hindex.
  unfold Spec.directoryIndexDecision.
  destruct (trailingSlash config); cbn [TrailingSlash_eqb andb];
    destruct (hasTrailingSlash (originalPathnameOf req)) eqn:Hs;
    cbn [negb andb]; try reflexivity.
  - destruct (cleanUrls config); cbn [negb]; [reflexivity|].
    now rewrite addTrailingSlash_lacking, append_assoc.
  - now destruct (pathnameOf req =? "/").
  - now rewrite addTrailingSlash_lacking, append_assoc.
Qed.

(** Where the request reaches the middleware under the path it was sent to
    (no base path), the root guard leaves nothing to normalize: the location
    is removeTrailingSlash(originalPath) + search as it stands. *)
Lemma removed_slash_location req :
  originalPathnameOf req = pathnameOf req ->
  hasTrailingSlash (originalPathnameOf req) = true ->
  pathnameOf req <> "/" ->
  normalizeRedirectPath
    (removeTrailingSlash (originalPathnameOf req) ++ searchOf req)
  = removeTrailingSlash (originalPathnameOf req) ++ searchOf req.
Proof.
  intros <- [front Hf]%endsWith_spec Hroot. rewrite Hf in Hroot |- *.
  unfold removeTrailingSlash. rewrite removeTrailingString_append.
  destruct front; [now elim Hroot | reflexivity].
Qed.

(** In the clean-URL step the original path, freed of ".html" and of a
    trailing "/index", lacks a trailing slash whenever the original path
    lacks one: the path holds no run of slashes. *)
Lemma stripped_index_lacks_slash req :
  hasTrailingSlash (originalPathnameOf req) = false ->
  hasTrailingSlash
    (removeTrailingString
       (removeTrailingString (originalPathnameOf req ++ ".html") ".html")
       "/index") = false.
Proof.
  intros Hs. rewrite removeTrailingString_append.
  destruct (endsWith (originalPathnameOf req) "/index") eqn:Hi.
  - destruct (originalPathnameOf_tidy req) as [_ Hd].
    apply endsWith_spec in Hi as [front Hf]. rewrite Hf in Hd |- *.
    rewrite removeTrailingString_append.
    now apply (hasDoubleSlash_before_slash front "index").
  - now rewrite removeTrailingString_other.
Qed.


(** Neither the ".html" sibling of a path (".html" in place of its trailing
    slash) nor the path with ".html" appended is the path itself or its
    directory index. *)
Lemma sibling_differs (p : string) :
  removeTrailingSlash p ++ ".html" <> p
  /\ removeTrailingSlash p ++ ".html" <> Spec.indexPath p
  /\ p ++ ".html" <> p
  /\ p ++ ".html" <> Spec.indexPath p.
Proof.
  unfold Spec.indexPath, removeTrailingSlash.
  destruct (endsWith p "/") eqn:Hs.
  - apply endsWith_spec in Hs as [front ->].
    rewrite removeTrailingString_append. repeat split.
    + intros H. now apply append_cancel_l in H.
    + intros H. now apply append_cancel_l in H.
    + now apply append_neq_self.
    + rewrite append_assoc. intros H. now apply append_cancel_l in H.
  - rewrite removeTrailingString_other by exact Hs. repeat split.
    + now apply append_neq_self.
    + intros H. now apply append_cancel_l in H.
    + now apply append_neq_self.
    + intros H. now apply append_cancel_l in H.
Qed.

(** C6 -- no-candidate fall-through: when cleanUrls is enabled, the original
    path has a trailing slash, trailingSlash is Unspecified, and neither the
    normalized path nor its directory index exists, no clean-URL candidate is
    asked for -- neither the path with ".html" appended nor its ".html"
    sibling (the path minus its trailing slash plus ".html"); the third call
    repeats the normalized path itself -- and the decision is Defer,
    whatever the existence function says of the sibling. *)
Theorem no_candidate_fall_through config existsFn req :
  cleanUrls config = true ->
  hasTrailingSlash (originalPathnameOf req) = true ->
  trailingSlash config = Unspecified ->
  existsFn (pathnameOf req) = Absent ->
  existsFn (Spec.indexPath (pathnameOf req)) = Absent ->
  decide config existsFn req = inr Defer
  /\ queries config existsFn req
     = [pathnameOf req; Spec.indexPath (pathnameOf req); pathnameOf req]
  /\ ~ In (removeTrailingSlash (pathnameOf req) ++ ".html")
          (queries config existsFn req)
  /\ ~ In (pathnameOf req ++ ".html") (queries config existsFn req).
Proof.
  intros Hclean Hs Hts Habsent Hindex.
  assert (Hq : queries config existsFn req
     = [pathnameOf req; Spec.indexPath (pathnameOf req); pathnameOf req]).
  { run. rewrite Habsent, asDirectoryIndex_indexPath, Hindex, Hclean, Hs, Hts.
    cbn [TrailingSlash_eqb negb]. now rewrite Habsent. }
  destruct (sibling_differs (pathnameOf req)) as (H1 & H2 & H3 & H4).
  split; [|split; [exact Hq|split]].
  - run. rewrite Habsent, asDirectoryIndex_indexPath, Hindex, Hclean, Hs, Hts.
    cbn [TrailingSlash_eqb negb]. now rewrite Habsent.
  - rewrite Hq. intros [H|[H|[H|[]]]]; auto.
  - rewrite Hq. intros [H|[H|[H|[]]]]; auto.
Qed.

End Steps.

(** ** The calls to the provider *)

Section Calls.
Import lodash pathutils.
Context {D E S : Type}.
Implicit Types (config : Config) (provider : Provider D E S)
  (req : Request) (s : S).

Ltac run :=
  cbv beta iota zeta delta
    [calls files andThen ask recording resolved fst snd].

Ltac reduce := cbv beta iota zeta delta [fst snd]; cbn [app].

(** Split on what the provider answers, call after call. *)
Ltac answers provider :=
  repeat match goal with
    | |- context [provider ?p ?s] =>
        let a := fresh "a" in
        let s' := fresh "s" in
        destruct (provider p s) as [a s']; destruct a; reduce
    end.

(** Keeping a log changes nothing in what the middleware does. *)
Lemma recording_outcome config provider req s log :
  fst (files config (recording provider) req (s, log))
  = fst (files config provider req s).
Proof.
  run. answers provider; try reflexivity;
    repeat match goal with
      | |- context [if ?b then _ else _] => destruct b
      end; try reflexivity; answers provider;
    repeat match goal with
      | |- context [if ?b then _ else _] => destruct b
      end; reflexivity.
Qed.

(** The path of the third call, as the middleware computes it. *)
Lemma appendedPath_cleanUrlQuery config req :
  (if hasTrailingSlash (originalPathnameOf req)
   then if negb (TrailingSlash_eqb (trailingSlash config) Unspecified)
        then removeTrailingString (pathnameOf req) "/" ++ ".html"
        else pathnameOf req
   else pathnameOf req ++ ".html")
  = Spec.cleanUrlQuery (trailingSlash config)
      (hasTrailingSlash (originalPathnameOf req)) (pathnameOf req).
Proof.
  unfold Spec.cleanUrlQuery, Spec.cleanUrlCandidate.
  now destruct (hasTrailingSlash _), (trailingSlash config).
Qed.

(** Every resolution takes one of the eight courses. *)
Lemma resolution_course config provider req s :
  Course config (pathnameOf req) (Spec.indexPath (pathnameOf req))
    (Spec.cleanUrlQuery (trailingSlash config)
       (hasTrailingSlash (originalPathnameOf req)) (pathnameOf req))
    (calls config provider req s)
    (fst (files config provider req s)).
Proof.
  rewrite <- (recording_outcome config provider req s []). run.
  destruct (provider (pathnameOf req) s) as [a1 s1]. reduce.
  destruct a1 as [result | | err].
  - destruct (cleanUrls config && _); constructor.
  - rewrite asDirectoryIndex_indexPath.
    destruct (provider (Spec.indexPath (pathnameOf req)) s1) as [a2 s2].
    reduce. destruct a2 as [result | | err].
    + repeat match goal with
        | |- context [if ?b then _ else _] => destruct b
        end; constructor.
    + destruct (cleanUrls config) eqn:Hclean; [|now constructor].
      rewrite appendedPath_cleanUrlQuery.
      destruct (provider _ s2) as [a3 s3]. reduce.
      destruct a3 as [result | | err]; try now constructor.
      repeat match goal with
        | |- context [if ?b then _ else _] => destruct b
        end; now constructor.
    + constructor.
  - constructor.
Qed.


(** C8 -- totality and error atomicity: one resolution has one outcome.  If
    every call to the existence function succeeds, the outcome is a decision,
    and only one (a ServeFile, a Redirect or a Defer).  If a call fails, the
    outcome is that call's error, unchanged, and no decision; the failed call
    is the last one made (nothing is asked again, neither that path nor
    another), and every call before it had answered "absent". *)
Theorem totality_and_error_atomicity config provider req s :
  let outcome := fst (files config provider req s) in
  let log := calls config provider req s in
  (Forall (fun call => isFailed (snd call) = false) log ->
   exists! decision, outcome = inr decision)
  /\ (forall path err, In (path, Failed err) log ->
      outcome = inl err
      /\ exists before, log = (before ++ [(path, Failed err)])%list
         /\ Forall (fun call => snd call = Absent) before).
Proof.
  cbv zeta. split.
  - intros Hok.
    destruct (resolution_course config provider req s);
      try (eexists; split; [reflexivity | now intros d' [= ->]]);
      exfalso;
      repeat match goal with
        | H : Forall _ (_ :: _) |- _ => inversion H; subst; clear H
        | H : isFailed (snd (_, Failed _)) = false |- _ => discriminate H
        end.
  - intros path err Hin.
    destruct (resolution_course config provider req s);
      cbn [In] in Hin;
      repeat match goal with
        | H : _ \/ _ |- _ => destruct H as [H|H]
        | H : False |- _ => destruct H
        | H : (_, _) = (_, _) |- _ => discriminate H
        | H : (_, Failed _) = (_, Failed _) |- _ => injection H as <- <-
        end;
      (split; [reflexivity|]).
    + exists []. now split.
    + exists [(pathnameOf req, Absent)]. split; [reflexivity|].
      now repeat constructor.
    + eexists [_; _]. split; [reflexivity|]. now repeat constructor.
Qed.

End Calls.

(** ** Slash runs in the request target *)

Section Collapse.
Import lodash pathutils url.

Lemma tidy_pathnameOf req : tidy (pathnameOf req).
Proof. apply pathnameOf_tidy. Qed.

Lemma tidy_originalPathnameOf req : tidy (originalPathnameOf req).
Proof. apply originalPathnameOf_tidy. Qed.

Lemma tidy_removeTrailingString p rm :
  tidy p -> tidy (removeTrailingString p rm).
Proof.
  intros [Hq Hd]. split.
  - now apply pathname_of_removeTrailingString.
  - now apply hasDoubleSlash_removeTrailingString.
Qed.

Lemma tidy_removeTrailingSlash p : tidy p -> tidy (removeTrailingSlash p).
Proof. apply tidy_removeTrailingString. Qed.

Lemma tidy_addTrailingSlash p : tidy p -> tidy (addTrailingSlash p).
Proof.
  intros [Hq Hd]. split.
  - now apply pathname_of_addTrailingSlash.
  - now apply hasDoubleSlash_addTrailingSlash.
Qed.

Lemma tidy_if (b : bool) p q : tidy p -> tidy q -> tidy (if b then p else q).
Proof. now destruct b. Qed.

Lemma tidy_root : tidy "/".
Proof. now split. Qed.

Lemma tidy_add_slash p :
  tidy p -> hasTrailingSlash p = false -> tidy (p ++ "/").
Proof.
  intros Ht Hs. rewrite <- addTrailingSlash_lacking by exact Hs.
  now apply tidy_addTrailingSlash.
Qed.

Hint Resolve tidy_pathnameOf tidy_originalPathnameOf
  tidy_removeTrailingString tidy_removeTrailingSlash tidy_addTrailingSlash
  tidy_if tidy_root : tidy.

(** The path portion of a location made of a tidy path and the search
    string of a request. *)
Lemma pathname_of_location p req :
  tidy p -> pathname_of (p ++ searchOf req) = p.
Proof.
  intros [Hq _]. unfold searchOf, parse. cbn [search].
  now rewrite pathname_of_append, pathname_of_search, append_nil_r.
Qed.

Lemma normalizeRedirectPath_tidy p req :
  tidy p -> tidy (pathname_of (normalizeRedirectPath (p ++ searchOf req))).
Proof.
  intros Ht. destruct (p ++ searchOf req) eqn:Hl.
  - apply tidy_root.
  - cbn [normalizeRedirectPath]. rewrite <- Hl.
    now rewrite pathname_of_location.
Qed.

Lemma normalizeRedirectPath_nonempty p s :
  p <> "" -> normalizeRedirectPath (p ++ s) = p ++ s.
Proof. destruct p; [now intros [] | reflexivity]. Qed.

Lemma addTrailingSlash_nonempty p : addTrailingSlash p <> "".
Proof.
  unfold addTrailingSlash. destruct (hasTrailingSlash p) eqn:Hs.
  - intros ->. discriminate.
  - now destruct p.
Qed.

(** The three things [files] reads off a request survive the collapse of
    its slash runs. *)
Lemma collapseTarget_pathname target :
  normalizeMultiSlashes (pathname_of (collapseTarget target))
  = normalizeMultiSlashes (pathname_of target).
Proof.
  unfold collapseTarget.
  rewrite pathname_of_append
    by apply pathname_of_normalizeMultiSlashes, pathname_of_idem.
  now rewrite pathname_of_search, append_nil_r, normalizeMultiSlashes_idem.
Qed.

Lemma collapseTarget_search target :
  search_of (collapseTarget target) = search_of target.
Proof.
  unfold collapseTarget.
  rewrite search_of_append
    by apply pathname_of_normalizeMultiSlashes, pathname_of_idem.
  apply search_of_idem.
Qed.

Lemma collapseRequest_reads req :
  pathnameOf (collapseRequest req) = pathnameOf req
  /\ originalPathnameOf (collapseRequest req) = originalPathnameOf req
  /\ searchOf (collapseRequest req) = searchOf req.
Proof.
  unfold pathnameOf, originalPathnameOf, searchOf, parse, collapseRequest.
  cbn [url originalUrl pathname search].
  now rewrite !collapseTarget_pathname, collapseTarget_search.
Qed.

(** "/index.html" is "/index" and then ".html". *)
Lemma endsWith_index_html y :
  endsWith (y ++ ".html") "/index.html" = endsWith y "/index".
Proof. apply (endsWith_tail y "/index" ".html"). Qed.

Lemma strip_index_html y :
  endsWith (y ++ ".html") "/index.html" = true ->
  removeTrailingString (y ++ ".html") "/index.html"
  = removeTrailingString y "/index".
Proof.
  rewrite endsWith_index_html. intros [front ->]%endsWith_spec.
  rewrite removeTrailingString_append, append_assoc.
  apply (removeTrailingString_append front "/index.html").
Qed.

Section Provider.
Context {D E S : Type}.
Implicit Types (config : Config) (provider : Provider D E S)
  (req : Request) (s : S).

(** Every location the middleware redirects to: a tidy path, built from
    the collapsed original path, and the search string of the request; "/"
    when both are empty. *)
Lemma redirect_location config provider req s location :
  fst (files config provider req s) = inr (Redirect location) ->
  exists p, tidy p
    /\ location = normalizeRedirectPath (p ++ searchOf req).
Proof.
  cbv beta iota zeta delta [files andThen ask resolved].
  destruct (provider (pathnameOf req) s) as [a1 s1]. destruct a1.
  - destruct (cleanUrls config && _); cbn [fst]; intros [= <-].
    eexists. split; [|reflexivity]. auto 10 with tidy.
  - destruct (provider _ s1) as [a2 s2]. destruct a2.
    + repeat match goal with
        | |- context [if ?b then _ else _] => destruct b
        end; cbn [fst]; intros [= <-].
      * exists (addTrailingSlash (originalPathnameOf req)).
        split; [auto with tidy|].
        now rewrite normalizeRedirectPath_nonempty
          by apply addTrailingSlash_nonempty.
      * eexists. split; [|reflexivity]. auto with tidy.
      * exists (addTrailingSlash (originalPathnameOf req)).
        split; [auto with tidy|].
        now rewrite normalizeRedirectPath_nonempty
          by apply addTrailingSlash_nonempty.
    + destruct (cleanUrls config); [|discriminate].
      destruct (provider _ s2) as [a3 s3]. destruct a3;
        [|discriminate|discriminate].
      destruct (TrailingSlash_eqb (trailingSlash config) ForceAbsent
                && hasTrailingSlash (originalPathnameOf req)).
      { cbn [fst]; intros [= <-].
        eexists. split; [|reflexivity]. auto with tidy. }
      destruct (TrailingSlash_eqb (trailingSlash config) ForcePresent
                && negb (hasTrailingSlash (originalPathnameOf req)))
        eqn:Hpresent.
      { cbn [fst]; intros [= <-].
        apply andb_true_iff in Hpresent as [_ Hs%negb_true_iff].
        rewrite Hs.
        exists (addTrailingSlash
                  (removeTrailingString
                     (removeTrailingString
                        (originalPathnameOf req ++ ".html") ".html")
                     "/index")).
        split.
        - rewrite removeTrailingString_append. auto with tidy.
        - now rewrite normalizeRedirectPath_nonempty
            by apply addTrailingSlash_nonempty. }
      destruct (endsWith _ "/index.html") eqn:Hindex; [|discriminate].
      cbn [fst]; intros [= <-].
      eexists. split; [|reflexivity].
      destruct (hasTrailingSlash (originalPathnameOf req));
        [destruct (negb (TrailingSlash_eqb (trailingSlash config)
                           Unspecified))|];
        rewrite ?strip_index_html by exact Hindex; auto with tidy.
    + discriminate.
  - discriminate.
Qed.

(** C9 -- multi-slash invariance: for every configuration and every
    provider, resolving a request whose path holds runs of two or more
    slashes does what resolving the request with each run collapsed to one
    slash does (same decision or error, same calls to the provider); and
    the path of every location redirected to holds no run of slashes: it is
    built from the collapsed path. *)
Theorem multi_slash_invariance config provider req s :
  files config provider req s = files config provider (collapseRequest req) s
  /\ (forall location,
        fst (files config provider req s) = inr (Redirect location) ->
        hasDoubleSlash (pathname_of location) = false).
Proof.
  split.
  - destruct (collapseRequest_reads req) as (Hp & Ho & Hs).
    unfold files. cbv zeta. now rewrite Hp, Ho, Hs.
  - intros location (p & Ht & ->)%redirect_location.
    now apply normalizeRedirectPath_tidy.
Qed.

End Provider.

(** The request of the tests: "/foo////" is resolved as "/foo/" is. *)
Example collapse_foo : collapseTarget "/foo////" = "/foo/".
Proof. reflexivity. Qed.

End Collapse.

(** ** Every location keeps the query string and is not empty *)

Section Locations.
Import lodash pathutils url.
Context {D E S : Type}.
Implicit Types (config : Config) (provider : Provider D E S)
  (req : Request) (s : S).

(** Query preservation: the location of every redirect ends with the search
    string of the request. *)
Theorem query_preserved config provider req s location :
  fst (files config provider req s) = inr (Redirect location) ->
  endsWith location (searchOf req) = true.
Proof.
  intros (p & _ & ->)%redirect_location.
  destruct (p ++ searchOf req) eqn:Hl.
  - apply append_eq_nil in Hl as [_ ->]. reflexivity.
  - cbn [normalizeRedirectPath]. rewrite <- Hl. apply endsWith_append.
Qed.

(** We cannot redirect to "": no location is the empty string. *)
Theorem location_not_empty config provider req s location :
  fst (files config provider req s) = inr (Redirect location) ->
  (location =? "") = false.
Proof.
  intros (p & _ & ->)%redirect_location.
  now destruct (p ++ searchOf req).
Qed.

End Locations.

(** ** The theorems at work on concrete requests *)

Section Concrete.
Import lodash pathutils url.

(** C1 -- no redirect loops -- does not hold of the middleware.  On the
    content tree of the tests, with trailingSlash ForcePresent and cleanUrls
    enabled, "/foo/index/" is redirected to "/foo": the last redirect of the
    clean-URL step strips "/index.html" and leaves out the slash the policy
    asks for, which the redirects beside it add.  Re-resolving "/foo" yields
    another Redirect, to "/foo/". *)
Lemma redirected_twice :
  decide {| trailingSlash := ForcePresent; cleanUrls := true |}
    testContent (GET "/foo/index/") = inr (Redirect "/foo")
  /\ decide {| trailingSlash := ForcePresent; cleanUrls := true |}
       testContent (GET (pathname_of "/foo")) = inr (Redirect "/foo/").
Proof. split; reflexivity. Qed.

(** A redirect can even lead back to where it came from: the clean-URL
    step has no guard for the root, unlike the directory-index step ("No
    infinite redirects"), so with a file named ".html" the root is redirected
    to itself. *)
Example root_redirected_to_itself :
  decide {| trailingSlash := ForceAbsent; cleanUrls := true |}
    (contentOf [".html"]) (GET "/") = inr (Redirect "/")
  /\ pathname_of "/" = "/".
Proof. split; reflexivity. Qed.

(** Under ForceAbsent, on the content tree of the tests, "/foo/index/" is
    redirected to "/foo/index" (the slash goes), and "/foo/index" is
    redirected again, to "/foo" (the index goes) ... *)
Example redirected_twice_absent :
  decide {| trailingSlash := ForceAbsent; cleanUrls := true |}
    testContent (GET "/foo/index/") = inr (Redirect "/foo/index")
  /\ decide {| trailingSlash := ForceAbsent; cleanUrls := true |}
       testContent (GET (pathname_of "/foo/index")) = inr (Redirect "/foo").
Proof. split; reflexivity. Qed.

(** ... and without a trailing-slash policy one ".html" is stripped per
    request. *)
Example redirected_twice_html :
  decide {| trailingSlash := Unspecified; cleanUrls := true |}
    (contentOf ["/foo.html.html"; "/foo.html"]) (GET "/foo.html.html")
  = inr (Redirect "/foo.html")
  /\ decide {| trailingSlash := Unspecified; cleanUrls := true |}
       (contentOf ["/foo.html.html"; "/foo.html"])
       (GET (pathname_of "/foo.html"))
     = inr (Redirect "/foo").
Proof. split; reflexivity. Qed.

(** The exact path wins although its directory index and its ".html"
    sibling are there too. *)
Lemma exact_match_precedence_witness :
  decide {| trailingSlash := Unspecified; cleanUrls := true |}
    (contentOf ["/foo"; "/foo/index.html"; "/foo.html"]) (GET "/foo")
  = inr (ServeFile "/foo" "/foo")
  /\ queries {| trailingSlash := Unspecified; cleanUrls := true |}
       (contentOf ["/foo"; "/foo/index.html"; "/foo.html"]) (GET "/foo")
     = ["/foo"].
Proof.
  apply (exact_match_precedence
           {| trailingSlash := Unspecified; cleanUrls := true |}
           (contentOf ["/foo"; "/foo/index.html"; "/foo.html"])
           (GET "/foo") "/foo");
    [reflexivity | intros [_ H]; discriminate H].
Defined.



(** Under ForcePresent the slash is appended, ahead of the search string. *)
Example clean_url_redirect_present :
  decide {| trailingSlash := ForcePresent; cleanUrls := true |}
    testContent (GET "/foo/index.html?x=1") = inr (Redirect "/foo/?x=1")
  /\ Spec.cleanUrlLocation ForcePresent "/foo/index.html" "?x=1"
     = "/foo/?x=1".
Proof. split; reflexivity. Qed.

Lemma directory_index_dispatch_witness :
  decide {| trailingSlash := ForceAbsent; cleanUrls := false |}
    testContent (GET "/foo/?x=1") = inr (Redirect "/foo?x=1").
Proof.
  apply (directory_index_dispatch
           {| trailingSlash := ForceAbsent; cleanUrls := false |}
           testContent (GET "/foo/?x=1") "foo/index.html content");
    reflexivity.
Defined.



(** The other three outcomes of the step, on the content tree of the
    tests. *)
Example clean_url_dispatch_outcomes :
  decide {| trailingSlash := ForceAbsent; cleanUrls := true |}
    testContent (GET "/foo/bar/?x=1") = inr (Redirect "/foo/bar?x=1")
  /\ decide {| trailingSlash := ForcePresent; cleanUrls := true |}
       testContent (GET "/foo/bar") = inr (Redirect "/foo/bar/")
  /\ decide {| trailingSlash := Unspecified; cleanUrls := true |}
       testContent (GET "/foo/bar")
     = inr (ServeFile "/foo/bar.html" "foo/bar.html content").
Proof. repeat split; reflexivity. Qed.

Lemma no_candidate_fall_through_witness :
  decide {| trailingSlash := Unspecified; cleanUrls := true |}
    testContent (GET "/foo/bar/") = inr Defer
  /\ queries {| trailingSlash := Unspecified; cleanUrls := true |}
       testContent (GET "/foo/bar/")
     = ["/foo/bar/"; "/foo/bar/index.html"; "/foo/bar/"]
  /\ ~ In "/foo/bar.html"
         (queries {| trailingSlash := Unspecified; cleanUrls := true |}
            testContent (GET "/foo/bar/"))
  /\ ~ In "/foo/bar/.html"
         (queries {| trailingSlash := Unspecified; cleanUrls := true |}
            testContent (GET "/foo/bar/")).
Proof.
  apply (no_candidate_fall_through
           {| trailingSlash := Unspecified; cleanUrls := true |}
           testContent (GET "/foo/bar/")); reflexivity.
Defined.

(** The third call of that resolution is a call like the others: a provider
    whose content turned up in the meantime has its file served. *)
Example late_content :
  files {| trailingSlash := Unspecified; cleanUrls := true |}
    (@scripted string string) (GET "/foo/bar/")
    [Absent; Absent; Found "late"]
  = (inr (ServeFile "/foo/bar/" "late"), []).
Proof. reflexivity. Qed.

(** C7 -- the location of a redirect can have an empty path: with
    cleanUrls enabled and "/index.html" in place, "/index.html?a=b" is
    redirected to "?a=b".  [normalizeRedirectPath] is given the path and the
    search string together, so the empty path is not replaced by "/". *)
Lemma location_with_empty_path :
  decide {| trailingSlash := Unspecified; cleanUrls := true |}
    (contentOf ["/index.html"]) (GET "/index.html?a=b")
  = inr (Redirect "?a=b")
  /\ pathname_of "?a=b" = "".
Proof. split; reflexivity. Qed.

(** Without the query string the same request is sent to "/". *)
Example location_root :
  decide {| trailingSlash := Unspecified; cleanUrls := true |}
    (contentOf ["/index.html"]) (GET "/index.html")
  = inr (Redirect "/").
Proof. reflexivity. Qed.

Lemma query_preserved_witness :
  endsWith "/foo/?query=params" (searchOf (GET "/foo?query=params")) = true.
Proof.
  apply (query_preserved
           {| trailingSlash := Unspecified; cleanUrls := false |}
           (static testContent) (GET "/foo?query=params") tt).
  reflexivity.
Defined.

Lemma location_not_empty_witness : ("/" =? "") = false.
Proof.
  apply (location_not_empty
           {| trailingSlash := Unspecified; cleanUrls := true |}
           (static (contentOf ["/index.html"])) (GET "/index.html") tt).
  reflexivity.
Defined.

End Concrete.

(** ** What a decision rests on *)

Section Outcomes.
Import lodash pathutils url.
Context {D E S : Type}.
Implicit Types (config : Config) (provider : Provider D E S)
  (req : Request) (s : S).

Ltac run :=
  cbv beta iota zeta delta
    [calls files andThen ask recording resolved fst snd].

Ltac reduce := cbv beta iota zeta delta [fst snd]; cbn [app].

Ltac branches :=
  repeat match goal with
    | |- context [if ?b then _ else _] => destruct b
    end.

(** The last call behind each outcome: a file is served, and a redirect
    issued, on an answer "found"; deferring takes answers "absent" only. *)
Lemma outcome_and_last_call config provider req s :
  match fst (files config provider req s) with
  | inr (ServeFile file result) =>
      exists before,
        calls config provider req s = (before ++ [(file, Found result)])%list
  | inr (Redirect _) =>
      exists before path result,
        calls config provider req s = (before ++ [(path, Found result)])%list
  | inr Defer =>
      Forall (fun call => snd call = Absent) (calls config provider req s)
  | inl _ => True
  end.
Proof.
  rewrite <- (recording_outcome config provider req s []). run.
  destruct (provider (pathnameOf req) s) as [a1 s1]. reduce.
  destruct a1 as [result | | err]; [| |exact I].
  - destruct (cleanUrls config && _); reduce.
    + now exists [], (pathnameOf req), result.
    + now exists [].
  - destruct (provider _ s1) as [a2 s2]. reduce.
    destruct a2 as [result | | err]; [| |exact I].
    + branches; reduce;
        solve [ eexists [_], _, _; reflexivity
              | eexists [_]; reflexivity ].
    + destruct (cleanUrls config); reduce; [|now repeat constructor].
      destruct (provider _ s2) as [a3 s3]. reduce.
      destruct a3 as [result | | err]; [| |exact I].
      * branches; reduce;
          solve [ eexists [_; _], _, _; reflexivity
                | eexists [_; _]; reflexivity ].
      * now repeat constructor.
Qed.

(** Nothing is served that the provider did not just find: when the
    decision is ServeFile(file, result), the last call made was for [file]
    and its answer was [result]. *)
Theorem served_file_was_found config provider req s file result :
  fst (files config provider req s) = inr (ServeFile file result) ->
  exists before,
    calls config provider req s = (before ++ [(file, Found result)])%list.
Proof.
  intros H. pose proof (outcome_and_last_call config provider req s) as Hl.
  now rewrite H in Hl.
Qed.

(** No redirect without content: when the decision is a Redirect, the last
    call made had found content. *)
Theorem redirect_rests_on_content config provider req s location :
  fst (files config provider req s) = inr (Redirect location) ->
  exists before path result,
    calls config provider req s = (before ++ [(path, Found result)])%list.
Proof.
  intros H. pose proof (outcome_and_last_call config provider req s) as Hl.
  now rewrite H in Hl.
Qed.

(** The middleware passes the request on exactly when every call it made
    came back "absent". *)
Theorem defer_iff_nothing_found config provider req s :
  fst (files config provider req s) = inr Defer
  <-> Forall (fun call => snd call = Absent) (calls config provider req s).
Proof.
  split.
  - intros H. pose proof (outcome_and_last_call config provider req s) as Hl.
    now rewrite H in Hl.
  - intros Hall.
    destruct (resolution_course config provider req s);
      try reflexivity; exfalso;
      repeat match goal with
        | H : Forall _ (_ :: _) |- _ => inversion H; subst; clear H
        | H : snd (_, Found _) = Absent |- _ => discriminate H
        | H : snd (_, Failed _) = Absent |- _ => discriminate H
        end.
Qed.

End Outcomes.

(** ** Where a redirect leads *)

Section Targets.
Import lodash pathutils url.
Context {D E S : Type}.
Implicit Types (config : Config) (provider : Provider D E S)
  (req : Request) (s : S).

Lemma length_removeTrailingString (p rm : string) :
  length (removeTrailingString p rm) <= length p.
Proof.
  destruct (removeTrailingString_prefix p rm) as [tail Ht].
  rewrite Ht at 2. rewrite length_append. lia.
Qed.

Lemma length_addTrailingSlash (p : string) :
  length (addTrailingSlash p) <= length p + 1.
Proof.
  unfold addTrailingSlash. destruct (hasTrailingSlash p);
    [lia | rewrite length_append; simpl; lia].
Qed.

(** The path portion of a location: the tidy path it was built from, or "/"
    when path and search string are both empty. *)
Lemma location_path p req :
  tidy p ->
  pathname_of (normalizeRedirectPath (p ++ searchOf req)) = p
  \/ (p = "" /\ searchOf req = ""
      /\ pathname_of (normalizeRedirectPath (p ++ searchOf req)) = "/").
Proof.
  intros Ht. destruct (p ++ searchOf req) eqn:Hl.
  - right. now apply append_eq_nil in Hl as [-> ->].
  - left. cbn [normalizeRedirectPath]. rewrite <- Hl.
    now apply pathname_of_location.
Qed.

(** The five shapes of a redirect: ".html" (and "/index") stripped from a
    path that exists; a slash added; a slash removed; a slash added to a
    clean URL, "/index" stripped; "/index" stripped from a clean URL. *)
Lemma redirect_forms config provider req s location :
  fst (files config provider req s) = inr (Redirect location) ->
  (cleanUrls config = true
   /\ endsWith (originalPathnameOf req) ".html" = true
   /\ location = normalizeRedirectPath
                   (Spec.cleanUrlTarget (trailingSlash config)
                      (originalPathnameOf req) ++ searchOf req))
  \/ (trailingSlash config <> ForceAbsent
      /\ hasTrailingSlash (originalPathnameOf req) = false
      /\ (trailingSlash config = Unspecified -> cleanUrls config = false)
      /\ location = (originalPathnameOf req ++ "/") ++ searchOf req)
  \/ (trailingSlash config = ForceAbsent
      /\ hasTrailingSlash (originalPathnameOf req) = true
      /\ location = normalizeRedirectPath
                      (removeTrailingSlash (originalPathnameOf req)
                       ++ searchOf req))
  \/ (cleanUrls config = true
      /\ trailingSlash config = ForcePresent
      /\ hasTrailingSlash (originalPathnameOf req) = false
      /\ location = (removeTrailingString (originalPathnameOf req) "/index"
                     ++ "/") ++ searchOf req)
  \/ (cleanUrls config = true
      /\ exists base,
           ((hasTrailingSlash (originalPathnameOf req) = false
             /\ base = originalPathnameOf req)
            \/ (hasTrailingSlash (originalPathnameOf req) = true
                /\ base = removeTrailingSlash (originalPathnameOf req)))
           /\ endsWith base "/index" = true
           /\ location = normalizeRedirectPath
                           (removeTrailingString base "/index"
                            ++ searchOf req)).
Proof.
  cbv beta iota zeta delta [files andThen ask resolved].
  set (orig := originalPathnameOf req).
  destruct (provider (pathnameOf req) s) as [a1 s1].
  destruct a1; [| |discriminate].
  - destruct (cleanUrls config) eqn:Hclean; [|discriminate].
    destruct (endsWith orig ".html") eqn:Hhtml; [|discriminate].
    cbn [andb fst]. intros [= <-]. left. repeat split.
    unfold Spec.cleanUrlTarget.
    destruct (endsWith (removeTrailingString orig ".html") "/index") eqn:Hi;
      [|rewrite (removeTrailingString_other _ "/index") by exact Hi];
      now destruct (trailingSlash config).
  - destruct (provider _ s1) as [a2 s2]. destruct a2; [| |discriminate].
    + destruct (trailingSlash config) eqn:Hts, (cleanUrls config) eqn:Hclean,
        (hasTrailingSlash orig) eqn:Hs;
        cbn [TrailingSlash_eqb andb negb fst]; try discriminate;
        try (destruct (pathnameOf req =? "/"); cbn [negb fst];
             [discriminate|]);
        intros [= <-]; rewrite ?addTrailingSlash_lacking by exact Hs;
        solve [ right; left; repeat split; congruence
              | right; right; left; now repeat split ].
    + destruct (cleanUrls config) eqn:Hclean; [|discriminate].
      destruct (provider _ s2) as [a3 s3].
      destruct a3; [|discriminate|discriminate].
      pose proof (stripped_index_lacks_slash req) as Hlacks.
      fold orig in Hlacks.
      destruct (trailingSlash config) eqn:Hts,
        (hasTrailingSlash orig) eqn:Hs;
        cbn [TrailingSlash_eqb andb negb fst];
        try (intros [= <-]; right; right; left; now repeat split).
      * (* Unspecified, trailing slash: the path itself was asked for *)
        destruct (endsWith orig "/index.html") eqn:Hi; [|discriminate].
        exfalso.
        assert (endsWith orig ("/index.htm" ++ "l") = false) as Hcontra
          by (apply (endsWith_other_tail orig "/index.htm" "/" "l");
              [discriminate | exact Hs]).
        cbn [append] in Hcontra. congruence.
      * destruct (endsWith (orig ++ ".html") "/index.html") eqn:Hi;
          [|discriminate].
        intros [= <-]. do 4 right. split; [reflexivity|]. exists orig.
        rewrite strip_index_html by exact Hi.
        rewrite endsWith_index_html in Hi. repeat split; auto.
      * destruct (endsWith (orig ++ ".html") "/index.html") eqn:Hi;
          [|discriminate].
        intros [= <-]. do 4 right. split; [reflexivity|]. exists orig.
        rewrite strip_index_html by exact Hi.
        rewrite endsWith_index_html in Hi. repeat split; auto.
      * destruct (endsWith (removeTrailingString orig "/" ++ ".html")
                    "/index.html") eqn:Hi; [|discriminate].
        intros [= <-]. do 4 right. split; [reflexivity|].
        exists (removeTrailingSlash orig). unfold removeTrailingSlash.
        rewrite strip_index_html by exact Hi.
        rewrite endsWith_index_html in Hi. repeat split; auto.
      * intros [= <-]. do 3 right. left.
        rewrite removeTrailingString_append in Hlacks |- *.
        rewrite addTrailingSlash_lacking by now apply Hlacks.
        now repeat split.
Qed.

(** The path portion of a location is not the original path -- the root
    under ForceAbsent apart (see [root_redirected_to_itself]). *)
Lemma location_path_differs config provider req s location :
  fst (files config provider req s) = inr (Redirect location) ->
  originalPathnameOf req <> "/" \/ trailingSlash config <> ForceAbsent ->
  (pathname_of location =? originalPathnameOf req) = false.
Proof.
  intros Hr Hroot. apply String.eqb_neq.
  destruct (tidy_originalPathnameOf req) as [Hq Hd].
  set (orig := originalPathnameOf req) in *.
  apply redirect_forms in Hr. fold orig in Hr.
  destruct Hr as [(_ & Hhtml & ->) | [(_ & Hs & _ & ->) | [(Hts & Hs & ->)
    | [(_ & _ & Hs & ->) | (_ & base & Hbase & Hi & ->)]]]].
  - (* ".html" stripped: the location is shorter *)
    apply endsWith_spec in Hhtml as [front Hf].
    assert (Hlen : length (Spec.cleanUrlTarget (trailingSlash config) orig)
                   <= length front + 1).
    { unfold Spec.cleanUrlTarget. rewrite Hf, removeTrailingString_append.
      pose proof (length_removeTrailingString front "/index").
      pose proof (length_addTrailingSlash
                    (removeTrailingString front "/index")).
      destruct (trailingSlash config); lia. }
    assert (Ht : tidy (Spec.cleanUrlTarget (trailingSlash config) orig)).
    { unfold Spec.cleanUrlTarget.
      destruct (trailingSlash config);
        repeat first [apply tidy_addTrailingSlash
                     | apply tidy_removeTrailingString]; now split. }
    assert (Hlo : length orig = length front + 5)
      by (rewrite Hf, length_append; reflexivity).
    intros Heq. apply (f_equal length) in Heq.
    destruct (location_path _ req Ht) as [Hp | (_ & _ & Hp)];
      rewrite Hp in Heq; simpl in Heq; lia.
  - (* a slash added *)
    rewrite pathname_of_location
      by (apply tidy_add_slash; [now split | exact Hs]).
    now apply append_neq_self.
  - (* a slash removed *)
    apply endsWith_spec in Hs as [front Hf]. unfold removeTrailingSlash.
    rewrite Hf in Hq, Hd, Hroot |- *. rewrite removeTrailingString_append.
    assert (Ht : tidy front)
      by (split; [now apply pathname_of_prefix in Hq
                 | now apply hasDoubleSlash_prefix in Hd]).
    destruct (location_path _ req Ht) as [Hp | (-> & _ & Hp)]; rewrite Hp.
    + intros Heq. symmetry in Heq. revert Heq. now apply append_neq_self.
    + intros _. destruct Hroot as [Hroot|Hroot]; now apply Hroot.
  - (* a slash added, "/index" stripped *)
    assert (Hy : tidy (removeTrailingString orig "/index"))
      by (apply tidy_removeTrailingString; now split).
    destruct (endsWith orig "/index") eqn:Hi.
    + apply endsWith_spec in Hi as [front Hf]. rewrite Hf in Hd, Hy |- *.
      rewrite removeTrailingString_append in Hy |- *.
      rewrite pathname_of_location
        by (apply tidy_add_slash;
            [exact Hy | now apply (hasDoubleSlash_before_slash front "index")]).
      intros Heq. now apply append_cancel_l in Heq.
    + rewrite removeTrailingString_other in Hy |- * by exact Hi.
      rewrite pathname_of_location by now apply tidy_add_slash.
      now apply append_neq_self.
  - (* "/index" stripped *)
    apply endsWith_spec in Hi as [front Hf]. rewrite Hf.
    rewrite removeTrailingString_append.
    assert (Horig : exists tail, orig = (front ++ "/index") ++ tail).
    { destruct Hbase as [[_ Hb] | [Hs Hb]].
      - exists "". now rewrite append_nil_r, <- Hf.
      - exists "/". apply endsWith_spec in Hs as [x Hx].
        unfold removeTrailingSlash in Hb.
        rewrite Hx, removeTrailingString_append in Hb.
        now rewrite <- Hf, Hb. }
    destruct Horig as [tail Horig].
    assert (Ht : tidy front).
    { rewrite Horig, append_assoc in Hq, Hd.
      split; [now apply pathname_of_prefix in Hq
             | now apply hasDoubleSlash_prefix in Hd]. }
    assert (Hlo : length orig = length front + 6 + length tail)
      by (rewrite Horig, !length_append; reflexivity).
    intros Heq. apply (f_equal length) in Heq.
    destruct (location_path _ req Ht) as [Hp | (-> & _ & Hp)];
      rewrite Hp in Heq; simpl in Heq; lia.
Qed.

(** What a location is made of: a tidy beginning of the original path, with
    or without a slash added, and the search string. *)
Lemma location_shape config provider req s location :
  fst (files config provider req s) = inr (Redirect location) ->
  exists x tail,
    tidy x /\ originalPathnameOf req = x ++ tail
    /\ (location = normalizeRedirectPath (x ++ searchOf req)
        \/ (hasTrailingSlash x = false
            /\ location = (x ++ "/") ++ searchOf req)).
Proof.
  intros Hr.
  destruct (tidy_originalPathnameOf req) as [Hq Hd].
  set (orig := originalPathnameOf req) in *.
  assert (Horig : tidy orig) by now split.
  assert (Hprefix : forall rm, exists tail,
             orig = removeTrailingString orig rm ++ tail)
    by (intros rm; apply removeTrailingString_prefix).
  apply redirect_forms in Hr. fold orig in Hr.
  destruct Hr as [(_ & _ & ->) | [(_ & Hs & _ & ->) | [(_ & _ & ->)
    | [(_ & _ & Hs & ->) | (_ & base & Hbase & Hi & ->)]]]].
  - (* ".html" and "/index" stripped, a slash added under ForcePresent *)
    unfold Spec.cleanUrlTarget.
    set (y := removeTrailingString (removeTrailingString orig ".html")
                "/index").
    assert (Hy : tidy y)
      by (subst y; now repeat apply tidy_removeTrailingString).
    assert (Hyp : exists tail, orig = y ++ tail).
    { destruct (Hprefix ".html") as [t1 H1].
      destruct (removeTrailingString_prefix
                  (removeTrailingString orig ".html") "/index") as [t2 H2].
      exists (t2 ++ t1). subst y. now rewrite <- append_assoc, <- H2. }
    destruct Hyp as [tail Hyp]. exists y, tail.
    split; [exact Hy | split; [exact Hyp|]].
    destruct (trailingSlash config); try (now left).
    unfold addTrailingSlash. destruct (hasTrailingSlash y) eqn:Hys;
      [now left|].
    right. split; [reflexivity|].
    now rewrite normalizeRedirectPath_nonempty by now destruct y.
  - exists orig, "". rewrite append_nil_r. auto.
  - destruct (Hprefix "/") as [tail Ht].
    exists (removeTrailingSlash orig), tail.
    split; [now apply tidy_removeTrailingSlash | auto].
  - destruct (Hprefix "/index") as [tail Ht].
    exists (removeTrailingString orig "/index"), tail.
    split; [now apply tidy_removeTrailingString | split; [exact Ht|]].
    right. split; [|reflexivity].
    pose proof (stripped_index_lacks_slash req Hs) as Hl.
    now rewrite removeTrailingString_append in Hl.
  - assert (Hb : tidy base /\ exists tail, orig = base ++ tail).
    { destruct Hbase as [[_ ->] | [_ ->]].
      - split; [exact Horig | exists ""; now rewrite append_nil_r].
      - split; [now apply tidy_removeTrailingSlash | apply Hprefix]. }
    destruct Hb as [Hbt [t1 H1]].
    destruct (removeTrailingString_prefix base "/index") as [t2 H2].
    exists (removeTrailingString base "/index"), (t2 ++ t1).
    split; [now apply tidy_removeTrailingString|].
    split; [now rewrite <- append_assoc, <- H2 | now left].
Qed.

(** The beginning of a rooted path is rooted, or empty. *)
Lemma rooted_prefix (x tail : string) :
  rooted (x ++ tail) = true -> x = "" \/ rooted x = true.
Proof. destruct x; [now left | now right]. Qed.

(** Where a redirect leads.  For a request whose original path starts with
    a slash -- the root under ForceAbsent apart (see
    [root_redirected_to_itself]) -- the path portion of the location either
    is empty, which takes a request with a query string (see
    [location_with_empty_path]), or is a path that starts with a slash and is
    not the requested one: neither the original path as it was sent nor the
    original path with its runs of slashes collapsed. *)
Theorem redirect_leads_elsewhere config provider req s location :
  fst (files config provider req s) = inr (Redirect location) ->
  rooted (originalPathnameOf req) = true ->
  originalPathnameOf req <> "/" \/ trailingSlash config <> ForceAbsent ->
  (pathname_of location = "" /\ searchOf req <> "")
  \/ (rooted (pathname_of location) = true
      /\ (pathname_of location =? originalPathnameOf req) = false
      /\ (pathname_of location =? pathname_of (originalUrl req)) = false).
Proof.
  intros Hr Hrooted Hroot.
  pose proof (location_path_differs _ _ _ _ _ Hr Hroot) as Hdiffers.
  assert (Hsent : pathname_of location <> ""
                  -> (pathname_of location =? pathname_of (originalUrl req))
                     = false).
  { intros _. apply String.eqb_neq. intros Heq.
    apply redirect_location in Hr as (p & Hp & ->).
    destruct (normalizeRedirectPath_tidy p req Hp) as [_ Hd].
    rewrite Heq in Hd, Hdiffers. apply String.eqb_neq in Hdiffers.
    apply Hdiffers. unfold originalPathnameOf, parse. cbn [pathname].
    symmetry. now apply normalizeMultiSlashes_fixed. }
  destruct (location_shape _ _ _ _ _ Hr) as (x & tail & Hx & Ho & Hl).
  rewrite Ho in Hrooted. apply rooted_prefix in Hrooted.
  destruct Hl as [-> | [Hs ->]].
  - destruct (location_path x req Hx) as [Hp | (-> & Hsearch & Hp)].
    + rewrite Hp in *. destruct Hrooted as [-> | Hrx].
      * destruct (searchOf req) eqn:Hsearch; [discriminate Hp|].
        left. split; [reflexivity | discriminate].
      * right. split; [exact Hrx | split; [exact Hdiffers|]].
        apply Hsent. intros ->. discriminate.
    + right. rewrite Hp in *. split; [reflexivity|].
      split; [exact Hdiffers | now apply Hsent].
  - right. rewrite pathname_of_location in * by now apply tidy_add_slash.
    assert (Hrs : rooted (x ++ "/") = true)
      by (destruct Hrooted as [-> | Hrx]; [reflexivity | now destruct x]).
    split; [exact Hrs | split; [exact Hdiffers|]].
    apply Hsent. intros Hempty. rewrite Hempty in Hrs. discriminate.
Qed.

(** With clean URLs disabled a redirect changes the trailing slash of the
    original path and nothing else: apart from that slash the path of the
    location is the original path. *)
Theorem only_the_slash_changes config provider req s location :
  cleanUrls config = false ->
  fst (files config provider req s) = inr (Redirect location) ->
  removeTrailingSlash (pathname_of location)
  = removeTrailingSlash (originalPathnameOf req).
Proof.
  intros Hclean Hr.
  destruct (tidy_originalPathnameOf req) as [Hq Hd].
  set (orig := originalPathnameOf req) in *.
  apply redirect_forms in Hr. fold orig in Hr.
  destruct Hr as [(Hc & _) | [(_ & Hs & _ & ->) | [(Hts & Hs & ->)
    | [(Hc & _) | (Hc & _)]]]]; try congruence.
  - rewrite pathname_of_location
      by (apply tidy_add_slash; [now split | exact Hs]).
    unfold removeTrailingSlash. rewrite removeTrailingString_append.
    now rewrite removeTrailingString_other by exact Hs.
  - apply endsWith_spec in Hs as [front Hf].
    unfold removeTrailingSlash. rewrite Hf in Hq, Hd |- *.
    rewrite removeTrailingString_append.
    assert (Hfs : hasTrailingSlash front = false)
      by now apply (hasDoubleSlash_before_slash front "").
    assert (Ht : tidy front)
      by (split; [now apply pathname_of_prefix in Hq
                 | now apply hasDoubleSlash_prefix in Hd]).
    destruct (location_path _ req Ht) as [Hp | (-> & _ & Hp)]; rewrite Hp.
    + now rewrite removeTrailingString_other by exact Hfs.
    + reflexivity.
Qed.

(** A request whose original path satisfies the trailing-slash policy and,
    under clean URLs, is in canonical form is never redirected, whatever the
    provider answers. *)
Theorem canonical_request_stays config provider req s :
  compliant config (originalPathnameOf req) = true ->
  (cleanUrls config = true ->
   canonical (trailingSlash config) (originalPathnameOf req) = true) ->
  redirects (fst (files config provider req s)) = false.
Proof.
  intros Hpolicy Hcanonical.
  destruct (fst (files config provider req s)) as [err|[file result|location|]]
    eqn:Hr; try reflexivity.
  exfalso. apply redirect_forms in Hr. unfold compliant, canonical in *.
  set (orig := originalPathnameOf req) in *.
  destruct Hr as [(Hc & Hhtml & _) | [(Hts & Hs & Hu & _) | [(Hts & Hs & _)
    | [(_ & Hts & Hs & _) | (Hc & base & Hbase & Hi & _)]]]].
  - specialize (Hcanonical Hc). rewrite Hhtml in Hcanonical. discriminate.
  - rewrite Hs in Hpolicy. destruct (trailingSlash config);
      [rewrite Hu in Hpolicy by reflexivity | now apply Hts |];
      discriminate.
  - rewrite Hts, Hs in Hpolicy. discriminate.
  - rewrite Hts, Hs in Hpolicy. discriminate.
  - specialize (Hcanonical Hc).
    apply andb_true_iff in Hcanonical as [Hcan _].
    apply andb_true_iff in Hcan as [_ Hindex%negb_true_iff].
    destruct Hbase as [[Hs ->] | [Hs ->]]; [|congruence].
    unfold removeTrailingSlash in Hindex.
    rewrite removeTrailingString_other in Hindex by exact Hs. congruence.
Qed.

End Targets.

(** ** The middleware under a base path *)

Section Mount.
Import lodash pathutils url.

(** Two ways to cut one string in two overlap in a middle part. *)
Lemma append_eq_append (a b c d : string) :
  a ++ b = c ++ d ->
  (exists m, c = a ++ m /\ b = m ++ d)
  \/ (exists m, a = c ++ m /\ d = m ++ b).
Proof.
  revert c. induction a as [|x a IH]; intros c H.
  - left. now exists c.
  - destruct c as [|y c].
    + right. now exists (String x a).
    + simpl in H. injection H as -> H.
      destruct (IH _ H) as [(m & -> & ->) | (m & -> & ->)];
        [left | right]; now exists m.
Qed.

Lemma slashFree_append (a b : string) :
  slashFree (a ++ b) = slashFree a && slashFree b.
Proof.
  induction a as [|c a IH]; [reflexivity|].
  simpl. now rewrite IH, andb_assoc.
Qed.

Lemma rooted_not_slashFree (p : string) :
  rooted p = true -> slashFree p = false.
Proof. destruct p; [discriminate|]. simpl. now intros ->. Qed.

(** A suffix with no slash after its first character is found in a rooted
    path or not at all: it cannot reach back into what stands before. *)
Lemma endsWith_rooted (basePath p : string) (c : ascii) (tl : string) :
  slashFree tl = true -> rooted p = true ->
  endsWith (basePath ++ p) (String c tl) = endsWith p (String c tl).
Proof.
  intros Htl Hp. destruct (endsWith p (String c tl)) eqn:He.
  - apply endsWith_spec in He as [front ->]. apply endsWith_spec.
    exists (basePath ++ front). now rewrite append_assoc.
  - apply endsWith_false. intros front H.
    apply append_eq_append in H as [(m & -> & Hm) | (m & _ & Hm)].
    + rewrite Hm in He. now rewrite endsWith_append in He.
    + destruct m as [|x m].
      * simpl in Hm. rewrite <- Hm in He.
        assert (endsWith (String c tl) (String c tl) = true) as Hself
          by (apply endsWith_spec; now exists "").
        congruence.
      * simpl in Hm. injection Hm as _ ->.
        rewrite slashFree_append in Htl.
        apply andb_true_iff in Htl as [_ Htl].
        apply rooted_not_slashFree in Hp. congruence.
Qed.

(** Stripping a suffix reaches under the base path whenever finding it
    does. *)
Lemma removeTrailingString_mounted (basePath p rm : string) :
  endsWith (basePath ++ p) rm = endsWith p rm ->
  removeTrailingString (basePath ++ p) rm
  = basePath ++ removeTrailingString p rm.
Proof.
  intros H. destruct (endsWith p rm) eqn:He.
  - apply endsWith_spec in He as [front ->].
    rewrite <- append_assoc. now rewrite !removeTrailingString_append.
  - now rewrite !removeTrailingString_other.
Qed.

(** What is left of a rooted path when a suffix is stripped: a rooted path,
    or nothing. *)
Lemma rooted_removeTrailingString (p rm : string) :
  rooted p = true ->
  removeTrailingString p rm = "" \/ rooted (removeTrailingString p rm) = true.
Proof.
  intros Hp. destruct (removeTrailingString_prefix p rm) as [tail Ht].
  destruct (removeTrailingString p rm) as [|c q]; [now left|right].
  rewrite Ht in Hp. exact Hp.
Qed.

Lemma rooted_normalizeMultiSlashes (p : string) :
  rooted p = true -> rooted (normalizeMultiSlashes p) = true.
Proof.
  destruct p as [|c p]; [discriminate|]. intros Hp.
  destruct (normalizeMultiSlashes_head c p) as [tail ->]. exact Hp.
Qed.

Lemma rooted_pathname_of (t : string) :
  rooted t = true -> rooted (pathname_of t) = true.
Proof.
  destruct t as [|c t]; [discriminate|]. simpl.
  intros ->%Ascii.eqb_eq. reflexivity.
Qed.

(** Collapsing slash runs leaves a base path alone that has none and does
    not end in a slash. *)
Lemma normalizeMultiSlashes_mounted (basePath p : string) :
  hasDoubleSlash basePath = false -> hasTrailingSlash basePath = false ->
  normalizeMultiSlashes (basePath ++ p)
  = basePath ++ normalizeMultiSlashes p.
Proof.
  unfold hasTrailingSlash.
  induction basePath as [|c rest IH]; [reflexivity|].
  rewrite endsWith_cons. intros Hd [Hc Hs]%orb_false_iff.
  destruct rest as [|c' rest].
  - assert (Hslash : (c =? "/")%char = false)
      by (simpl in Hc; now destruct (c =? "/")%char).
    simpl append. destruct p as [|x p]; [reflexivity|].
    now rewrite normalizeMultiSlashes_cons2, Hslash.
  - change ((String c (String c' rest)) ++ p)
      with (String c (String c' (rest ++ p))).
    rewrite hasDoubleSlash_cons2 in Hd.
    apply orb_false_iff in Hd as [Hcc Hd].
    rewrite normalizeMultiSlashes_cons2, Hcc.
    change (String c' (rest ++ p)) with (String c' rest ++ p).
    now rewrite IH.
Qed.

Section Based.
Variable basePath : string.
Hypothesis base_no_query : pathname_of basePath = basePath.
Hypothesis base_collapsed : hasDoubleSlash basePath = false.
Hypothesis base_no_slash : hasTrailingSlash basePath = false.
Hypothesis base_no_index : endsWith basePath "/index" = false.

Lemma rootedOrEmpty_removeTrailingString z rm :
  rootedOrEmpty z -> rootedOrEmpty (removeTrailingString z rm).
Proof.
  intros [-> | Hz]; [|now apply rooted_removeTrailingString].
  left. unfold removeTrailingString. now destruct (endsWith "" rm).
Qed.

Lemma hasTrailingSlash_based z :
  rootedOrEmpty z ->
  hasTrailingSlash (basePath ++ z) = hasTrailingSlash z.
Proof.
  intros [-> | Hz].
  - now rewrite append_nil_r, base_no_slash.
  - now apply (endsWith_rooted basePath z "/" "").
Qed.

Lemma endsWith_index_based z :
  rootedOrEmpty z ->
  endsWith (basePath ++ z) "/index" = endsWith z "/index".
Proof.
  intros [-> | Hz].
  - now rewrite append_nil_r, base_no_index.
  - now apply (endsWith_rooted basePath z "/" "index").
Qed.

Lemma endsWith_html_based z :
  rooted z = true ->
  endsWith (basePath ++ z) ".html" = endsWith z ".html".
Proof. intros Hz. now apply (endsWith_rooted basePath z "." "html"). Qed.

Lemma endsWith_index_html_based z :
  rootedOrEmpty z ->
  endsWith (basePath ++ (z ++ ".html")) "/index.html"
  = endsWith (z ++ ".html") "/index.html".
Proof.
  intros Hz. rewrite <- append_assoc, !endsWith_index_html.
  now apply endsWith_index_based.
Qed.

Lemma addTrailingSlash_based z :
  rootedOrEmpty z ->
  addTrailingSlash (basePath ++ z) = basePath ++ addTrailingSlash z.
Proof.
  intros Hz. unfold addTrailingSlash. rewrite hasTrailingSlash_based by exact Hz.
  destruct (hasTrailingSlash z); [reflexivity | apply append_assoc].
Qed.

Lemma removeTrailingSlash_based z :
  rootedOrEmpty z ->
  removeTrailingString (basePath ++ z) "/"
  = basePath ++ removeTrailingString z "/".
Proof.
  intros Hz. apply removeTrailingString_mounted.
  now apply hasTrailingSlash_based.
Qed.

Lemma removeTrailingIndex_based z :
  rootedOrEmpty z ->
  removeTrailingString (basePath ++ z) "/index"
  = basePath ++ removeTrailingString z "/index".
Proof.
  intros Hz. apply removeTrailingString_mounted.
  now apply endsWith_index_based.
Qed.

Lemma removeTrailingHtml_based z :
  rooted z = true ->
  removeTrailingString (basePath ++ z) ".html"
  = basePath ++ removeTrailingString z ".html".
Proof.
  intros Hz. apply removeTrailingString_mounted.
  now apply endsWith_html_based.
Qed.

Lemma removeTrailingIndexHtml_based z :
  rootedOrEmpty z ->
  removeTrailingString (basePath ++ (z ++ ".html")) "/index.html"
  = basePath ++ removeTrailingString (z ++ ".html") "/index.html".
Proof.
  intros Hz. apply removeTrailingString_mounted.
  now apply endsWith_index_html_based.
Qed.

(** A location under the base path: the base path and the location at the
    root; where the latter is the "/" that stands for an empty location, the
    bare base path. *)
Lemma normalizeRedirectPath_based (p search : string) :
  normalizeRedirectPath ((basePath ++ p) ++ search)
  = basePath ++ normalizeRedirectPath (p ++ search)
  \/ (normalizeRedirectPath (p ++ search) = "/"
      /\ normalizeRedirectPath ((basePath ++ p) ++ search) = basePath).
Proof.
  rewrite append_assoc. destruct (p ++ search) eqn:Hl.
  - rewrite append_nil_r. destruct basePath; [now left | now right].
  - left. cbn [normalizeRedirectPath].
    now destruct basePath.
Qed.

(** What the middleware reads off a request under the base path. *)
Lemma mounted_reads target :
  rooted target = true ->
  pathnameOf (mounted basePath target) = pathnameOf (GET target)
  /\ searchOf (mounted basePath target) = searchOf (GET target)
  /\ originalPathnameOf (mounted basePath target)
     = basePath ++ pathnameOf (GET target)
  /\ originalPathnameOf (GET target) = pathnameOf (GET target)
  /\ rooted (pathnameOf (GET target)) = true.
Proof.
  intros Ht. repeat split.
  - unfold originalPathnameOf, pathnameOf, mounted, parse.
    cbn [url originalUrl pathname].
    rewrite pathname_of_append by exact base_no_query.
    now apply normalizeMultiSlashes_mounted.
  - now apply rooted_normalizeMultiSlashes, rooted_pathname_of.
Qed.

Section Resolution.
Context {D E S : Type}.
Implicit Types (config : Config) (provider : Provider D E S) (s : S).

Ltac branches :=
  repeat match goal with
    | |- context [if ?b then _ else _] => destruct b
    end.

(** Base-path mounting: under a base path (without "?", without slash runs,
    not ending in "/" or in "/index") the middleware asks the provider the
    same questions and comes to the same outcome as at the root; only the
    location of a redirect differs, by the base path in front of it. *)
Theorem mounted_like_root config provider target s :
  rooted target = true ->
  rebased basePath
    (fst (files config provider (GET target) s))
    (fst (files config provider (mounted basePath target) s))
  /\ snd (files config provider (mounted basePath target) s)
     = snd (files config provider (GET target) s).
Proof.
  intros Ht.
  destruct (mounted_reads target Ht) as (Hp & Hsearch & Ho & Hor & Hrooted).
  cbv beta iota zeta delta [files andThen ask resolved].
  rewrite Hp, Hsearch, Ho, Hor.
  set (p := pathnameOf (GET target)) in *.
  set (search := searchOf (GET target)).
  assert (Hroe : rootedOrEmpty p) by now right.
  rewrite (hasTrailingSlash_based p Hroe), (endsWith_html_based p Hrooted).
  destruct (provider p s) as [a1 s1]. destruct a1; [| |now split].
  - (* the exact path *)
    destruct (cleanUrls config && endsWith p ".html"); [|now split].
    split; [|reflexivity]. cbn [fst rebased].
    rewrite (removeTrailingHtml_based p Hrooted).
    assert (Hx : rootedOrEmpty (removeTrailingString p ".html"))
      by now apply rootedOrEmpty_removeTrailingString.
    rewrite (endsWith_index_based _ Hx), (removeTrailingIndex_based _ Hx).
    assert (Hy : rootedOrEmpty
                   (removeTrailingString (removeTrailingString p ".html")
                      "/index"))
      by now apply rootedOrEmpty_removeTrailingString.
    destruct (endsWith (removeTrailingString p ".html") "/index"),
      (TrailingSlash_eqb (trailingSlash config) ForcePresent);
      rewrite ?addTrailingSlash_based by assumption;
      apply normalizeRedirectPath_based.
  - destruct (provider _ s1) as [a2 s2]. destruct a2; [| |now split].
    + (* the directory index *)
      split; [|now branches].
      unfold removeTrailingSlash.
      rewrite (addTrailingSlash_based p Hroe),
        (removeTrailingSlash_based p Hroe).
      branches; cbn [fst rebased]; try reflexivity;
        solve [ left; apply append_assoc
              | apply normalizeRedirectPath_based ].
    + (* the clean URL *)
      destruct (cleanUrls config); [|now split].
      destruct (provider _ s2) as [a3 s3].
      destruct a3; [| now split | now split].
      split; [|now branches].
      unfold removeTrailingSlash.
      rewrite (removeTrailingSlash_based p Hroe).
      assert (Hz : rootedOrEmpty (removeTrailingString p "/"))
        by now apply rootedOrEmpty_removeTrailingString.
      assert (Hy : rootedOrEmpty (removeTrailingString p "/index"))
        by now apply rootedOrEmpty_removeTrailingString.
      destruct (trailingSlash config), (hasTrailingSlash p);
        cbn [TrailingSlash_eqb andb negb];
        rewrite ?append_assoc;
        rewrite ?(endsWith_index_html_based _ Hz),
          ?(endsWith_index_html_based _ Hroe),
          ?(removeTrailingIndexHtml_based _ Hz),
          ?(removeTrailingIndexHtml_based _ Hroe),
          ?(endsWith_rooted basePath p "/" "index.html" eq_refl Hrooted),
          ?(removeTrailingString_mounted basePath p "/index.html"
              (endsWith_rooted basePath p "/" "index.html" eq_refl Hrooted));
        branches; cbn [fst rebased]; try reflexivity;
        try apply normalizeRedirectPath_based.
      * rewrite <- append_assoc. apply normalizeRedirectPath_based.
      * left. rewrite <- (append_assoc basePath p ".html").
        rewrite !removeTrailingString_append.
        rewrite (removeTrailingIndex_based p Hroe).
        rewrite (addTrailingSlash_based _ Hy). apply append_assoc.
Qed.

End Resolution.

End Based.

End Mount.

(** ** More concrete requests *)

Section MoreConcrete.
Import lodash pathutils url.

Lemma served_file_was_found_witness :
  exists before,
    calls {| trailingSlash := ForcePresent; cleanUrls := true |}
      (static testContent) (GET "/foo/bar/") tt
    = (before ++ [("/foo/bar.html", Found "foo/bar.html content")])%list.
Proof.
  apply (served_file_was_found
           {| trailingSlash := ForcePresent; cleanUrls := true |}
           (static testContent) (GET "/foo/bar/") tt).
  reflexivity.
Defined.

Lemma redirect_rests_on_content_witness :
  exists before path result,
    calls {| trailingSlash := Unspecified; cleanUrls := false |}
      (static testContent) (GET "/foo") tt
    = (before ++ [(path, Found result)])%list.
Proof.
  apply (redirect_rests_on_content
           {| trailingSlash := Unspecified; cleanUrls := false |}
           (static testContent) (GET "/foo") tt "/foo/").
  reflexivity.
Defined.

Lemma redirect_leads_elsewhere_witness :
  (pathname_of "/foo/bar?x=1" = ""
   /\ searchOf (GET "/foo//bar.html?x=1") <> "")
  \/ (rooted (pathname_of "/foo/bar?x=1") = true
      /\ (pathname_of "/foo/bar?x=1"
          =? originalPathnameOf (GET "/foo//bar.html?x=1")) = false
      /\ (pathname_of "/foo/bar?x=1"
          =? pathname_of (originalUrl (GET "/foo//bar.html?x=1"))) = false).
Proof.
  apply (redirect_leads_elsewhere
           {| trailingSlash := ForceAbsent; cleanUrls := true |}
           (static testContent) (GET "/foo//bar.html?x=1") tt "/foo/bar?x=1");
    [reflexivity | reflexivity | left; discriminate].
Defined.

Lemma only_the_slash_changes_witness :
  removeTrailingSlash (pathname_of "/foo?x=1")
  = removeTrailingSlash (originalPathnameOf (GET "/foo////?x=1")).
Proof.
  apply (only_the_slash_changes
           {| trailingSlash := ForceAbsent; cleanUrls := false |}
           (static testContent) (GET "/foo////?x=1") tt "/foo?x=1");
    reflexivity.
Defined.

Lemma canonical_request_stays_witness :
  redirects
    (fst (files {| trailingSlash := ForcePresent; cleanUrls := true |}
            (@scripted string string) (GET "/foo/bar/")
            [Absent; Absent; Found "foo/bar.html content"])) = false.
Proof.
  apply (canonical_request_stays
           {| trailingSlash := ForcePresent; cleanUrls := true |}
           (@scripted string string) (GET "/foo/bar/")
           [Absent; Absent; Found "foo/bar.html content"]);
    [reflexivity | intros _; reflexivity].
Defined.

Lemma mounted_like_root_witness :
  rebased "/base/path"
    (fst (files {| trailingSlash := ForcePresent; cleanUrls := true |}
            (static testContent) (GET "/foo/bar.html?x=1") tt))
    (fst (files {| trailingSlash := ForcePresent; cleanUrls := true |}
            (static testContent) (mounted "/base/path" "/foo/bar.html?x=1")
            tt))
  /\ snd (files {| trailingSlash := ForcePresent; cleanUrls := true |}
            (static testContent) (mounted "/base/path" "/foo/bar.html?x=1")
            tt)
     = snd (files {| trailingSlash := ForcePresent; cleanUrls := true |}
              (static testContent) (GET "/foo/bar.html?x=1") tt).
Proof.
  apply (mounted_like_root "/base/path" eq_refl eq_refl eq_refl eq_refl
           {| trailingSlash := ForcePresent; cleanUrls := true |}
           (static testContent) "/foo/bar.html?x=1" tt).
  reflexivity.
Defined.

(** Under the base path the location gains the base path ... *)
Example mounted_redirect :
  decide {| trailingSlash := ForcePresent; cleanUrls := true |}
    testContent (mounted "/base/path" "/foo/bar.html?x=1")
  = inr (Redirect "/base/path/foo/bar/?x=1").
Proof. reflexivity. Qed.

(** ... but the location that is "/" at the root for want of a path is the
    bare base path under it. *)
Example mounted_index :
  decide {| trailingSlash := Unspecified; cleanUrls := true |}
    (contentOf ["/index.html"]) (GET "/index.html") = inr (Redirect "/")
  /\ decide {| trailingSlash := Unspecified; cleanUrls := true |}
       (contentOf ["/index.html"]) (mounted "/base/path" "/index.html")
     = inr (Redirect "/base/path").
Proof. split; reflexivity. Qed.

(** A base path that ends in "/index" is told apart: the clean-URL step
    takes the end of the base path for a directory index of the request. *)
Example mounted_at_index :
  decide {| trailingSlash := ForcePresent; cleanUrls := true |}
    (contentOf [".html"]) (GET "/") = inr (ServeFile ".html" ".html")
  /\ decide {| trailingSlash := ForcePresent; cleanUrls := true |}
       (contentOf [".html"]) (mounted "/index" "/") = inr (Redirect "/").
Proof. split; reflexivity. Qed.

End MoreConcrete.

(** ** What is served, and how far a redirect goes *)

Section Guesses.
Import lodash pathutils url.
Context {D E S : Type}.
Implicit Types (config : Config) (provider : Provider D E S)
  (req : Request) (s : S).

(** The last call of a course is for one of the three paths. *)
Lemma last_call_path config (p index candidate : string)
    (log before : list (string * Answer D E)) outcome file answer :
  Course config p index candidate log outcome ->
  log = (before ++ [(file, answer)])%list ->
  file = p \/ file = index \/ file = candidate.
Proof.
  intros Hc Hl. destruct Hc;
    repeat (destruct before as [|? before]; try discriminate Hl;
            cbn [app] in Hl);
    injection Hl; intros; subst; auto.
Qed.

(** The middleware guesses HTML files only: a file it serves is the path
    that was asked for, or a path ending in ".html". *)
Theorem only_html_is_guessed config provider req s file result :
  fst (files config provider req s) = inr (ServeFile file result) ->
  file = pathnameOf req \/ endsWith file ".html" = true.
Proof.
  intros Hr.
  pose proof (outcome_and_last_call config provider req s) as Hl.
  rewrite Hr in Hl. destruct Hl as [before Hl].
  destruct (last_call_path _ _ _ _ _ _ _ _ _
              (resolution_course config provider req s) Hl)
    as [-> | [-> | ->]].
  - now left.
  - right. unfold Spec.indexPath. apply endsWith_spec.
    exists (removeTrailingSlash (pathnameOf req) ++ "/index").
    now rewrite append_assoc.
  - unfold Spec.cleanUrlQuery, Spec.cleanUrlCandidate.
    destruct (hasTrailingSlash (originalPathnameOf req));
      [destruct (trailingSlash config)|];
      solve [ now left | right; apply endsWith_append ].
Qed.

(** A redirect only cuts the path short: the path of the location, its
    trailing slash left aside, is the beginning of the original path. *)
Theorem redirect_cuts_short config provider req s location :
  fst (files config provider req s) = inr (Redirect location) ->
  exists tail,
    originalPathnameOf req
    = removeTrailingSlash (pathname_of location) ++ tail.
Proof.
  intros Hr.
  destruct (tidy_originalPathnameOf req) as [Hq Hd].
  set (orig := originalPathnameOf req) in *.
  assert (Hcut : forall x,
             tidy x -> (exists tail, orig = x ++ tail) ->
             exists tail,
               orig = removeTrailingSlash
                        (pathname_of
                           (normalizeRedirectPath (x ++ searchOf req)))
                      ++ tail).
  { intros x Hx [tail Htail].
    destruct (location_path x req Hx) as [Hp | (-> & _ & Hp)]; rewrite Hp.
    - destruct (removeTrailingString_prefix x "/") as [t Ht].
      exists (t ++ tail). unfold removeTrailingSlash.
      now rewrite <- append_assoc, <- Ht.
    - now exists orig. }
  assert (Hslash : forall y,
             tidy y -> hasTrailingSlash y = false ->
             (exists tail, orig = y ++ tail) ->
             exists tail,
               orig = removeTrailingSlash
                        (pathname_of ((y ++ "/") ++ searchOf req)) ++ tail).
  { intros y Hy Hs Htail.
    rewrite pathname_of_location by now apply tidy_add_slash.
    unfold removeTrailingSlash. now rewrite removeTrailingString_append. }
  assert (Horig : tidy orig) by now split.
  assert (Hprefix : forall rm, exists tail,
             orig = removeTrailingString orig rm ++ tail)
    by (intros rm; apply removeTrailingString_prefix).
  apply redirect_forms in Hr. fold orig in Hr.
  destruct Hr as [(_ & _ & ->) | [(_ & Hs & _ & ->) | [(_ & _ & ->)
    | [(_ & _ & Hs & ->) | (_ & base & Hbase & Hi & ->)]]]].
  - (* ".html" and "/index" stripped, a slash added under ForcePresent *)
    unfold Spec.cleanUrlTarget.
    set (y := removeTrailingString (removeTrailingString orig ".html")
                "/index").
    assert (Hy : tidy y)
      by (subst y; now repeat apply tidy_removeTrailingString).
    assert (Hyp : exists tail, orig = y ++ tail).
    { destruct (Hprefix ".html") as [t1 H1].
      destruct (removeTrailingString_prefix
                  (removeTrailingString orig ".html") "/index") as [t2 H2].
      exists (t2 ++ t1). subst y. now rewrite <- append_assoc, <- H2. }
    destruct (trailingSlash config); try now apply Hcut.
    unfold addTrailingSlash. destruct (hasTrailingSlash y) eqn:Hys;
      [now apply Hcut|].
    rewrite normalizeRedirectPath_nonempty by now destruct y.
    now apply Hslash.
  - apply Hslash; auto. exists "". now rewrite append_nil_r.
  - apply Hcut; [now apply tidy_removeTrailingSlash | apply Hprefix].
  - apply Hslash; [now apply tidy_removeTrailingString | | apply Hprefix].
    pose proof (stripped_index_lacks_slash req Hs) as Hl.
    now rewrite removeTrailingString_append in Hl.
  - assert (Hb : tidy base /\ exists tail, orig = base ++ tail).
    { destruct Hbase as [[_ ->] | [_ ->]].
      - split; [exact Horig | exists ""; now rewrite append_nil_r].
      - split; [now apply tidy_removeTrailingSlash | apply Hprefix]. }
    destruct Hb as [Hbt [t1 H1]].
    apply Hcut; [now apply tidy_removeTrailingString|].
    destruct (removeTrailingString_prefix base "/index") as [t2 H2].
    exists (t2 ++ t1). now rewrite <- append_assoc, <- H2.
Qed.

End Guesses.

Section GuessesConcrete.
Import lodash pathutils url.

Lemma only_html_is_guessed_witness :
  "/foo/bar.html" = pathnameOf (GET "/foo/bar")
  \/ endsWith "/foo/bar.html" ".html" = true.
Proof.
  apply (only_html_is_guessed
           {| trailingSlash := Unspecified; cleanUrls := true |}
           (static testContent) (GET "/foo/bar") tt
           "/foo/bar.html" "foo/bar.html content").
  reflexivity.
Defined.

Lemma redirect_cuts_short_witness :
  exists tail,
    originalPathnameOf (GET "/foo/index.html?x=1")
    = removeTrailingSlash (pathname_of "/foo/?x=1") ++ tail.
Proof.
  apply (redirect_cuts_short
           {| trailingSlash := ForcePresent; cleanUrls := true |}
           (static testContent) (GET "/foo/index.html?x=1") tt "/foo/?x=1").
  reflexivity.
Defined.

End GuessesConcrete.
